(** * Embase conference dashboard: a shallow embedding of [app.py]

    The development follows the order of the source file:

    - cell values, rows (pandas Series) and tables (pandas DataFrames);
    - [create_conference_id], the identity key of a conference;
    - the JSON text written to and read from [pinned_conferences.json];
    - the files on disk and the messages shown with [st.error];
    - [save_pinned_conferences], [load_pinned_conferences],
      [download_latest_excel] and [load_conference_data];
    - CPython's [set] of row labels, whose iteration order decides the row
      order of a search result;
    - [fuzzy_search], the filter pipeline of the search tab and the
      reconciliation of the pin check boxes.

    Python exceptions are values of [result]; the file system and the
    message log are threaded explicitly through every function that
    touches them. *)

From Stdlib Require Import ZArith Ascii String.
From stdpp Require Import gmap strings list sets pretty.

Local Open Scope Z_scope.

(** ** Exceptions *)

Inductive exn : Type :=
| KeyError (key : string)        (* a missing column or row label *)
| ValueError (msg : string)      (* [pd.concat] of no frame *)
| BadWorkbook (msg : string)     (* [pd.ExcelFile] on bytes that are no workbook *)
| OSError (msg : string)         (* [open] or [write] refused by the system *)
| RequestException (msg : string) (* [requests.get] could not reach the server *)
| JSONDecodeError (msg : string).

Inductive result (A : Type) : Type :=
| Ok (a : A)
| Raise (e : exn).

Arguments Ok {A} a.
Arguments Raise {A} e.

#[global] Instance result_ret : MRet result := λ A a, Ok a.

#[global] Instance result_bind : MBind result := λ A B k r,
  match r with
  | Ok a => k a
  | Raise e => Raise e
  end.

(** [str(e)] for the exceptions above. *)
Definition exn_str (e : exn) : string :=
  match e with
  | KeyError k => k
  | ValueError m | BadWorkbook m | OSError m
  | RequestException m | JSONDecodeError m => m
  end.

(** ** Cell values, rows and tables *)

(** What a cell of the conference table can hold.  A [Timestamp] carries the
    text [str] prints for it (["2024-05-01 00:00:00"]); [NaN] and [NaT] are
    pandas' missing number or text and missing date. *)
Inductive value : Type :=
| Str (s : string)
| Int (n : Z)
| Timestamp (text : string)
| NaN
| NaT.

#[global] Instance value_eq_dec : EqDecision value.
Proof. solve_decision. Defined.

(** Python's [str(v)]. *)
Definition py_str (v : value) : string :=
  match v with
  | Str s => s
  | Int n => pretty n
  | Timestamp text => text
  | NaN => "nan"
  | NaT => "NaT"
  end.

(** [pd.isna]: what [dropna] removes. *)
Definition isna (v : value) : bool :=
  match v with
  | NaN | NaT => true
  | _ => false
  end.

(** A row handed to [create_conference_id] is a pandas Series: a finite map
    from column names to values.  [row.get(key, default)]. *)
Definition row_get (row : gmap string value) (key : string) (dflt : value) : value :=
  default dflt (row !! key).

(** A DataFrame: its column names and its rows, each with its index label.
    A cell that a row does not store is [NaN], as in a frame built by
    [pd.concat] from sheets with different columns. *)
Record DataFrame : Type := mkDataFrame {
  columns : list string;
  rows : list (Z * gmap string value)
}.

Definition cell (r : gmap string value) (column : string) : value :=
  default NaN (r !! column).

(** [df.index.tolist()]. *)
Definition index (df : DataFrame) : list Z := (rows df).*1.

(** [pd.DataFrame()]. *)
Definition empty_frame : DataFrame := mkDataFrame [] [].

(** [df[column]]: the labelled values of one column; [KeyError] when the
    frame has no such column. *)
Definition df_column (df : DataFrame) (column : string) : result (list (Z * value)) :=
  if decide (column ∈ columns df)
  then Ok ((λ ir, (ir.1, cell ir.2 column)) <$> rows df)
  else Raise (KeyError column).

(** [series.dropna()]. *)
Definition dropna (series : list (Z * value)) : list (Z * value) :=
  filter (λ iv, isna iv.2 = false) series.

(** ** The identity key *)

Definition COL_EVENT : string := "Conference Event".
Definition COL_START : string := "Start Date".
Definition COL_END : string := "End Date".
Definition COL_LOCATION : string := "Conference location".
Definition COL_COUNTRY : string := "Country".
Definition COL_YEAR : string := "Year".
Definition COL_ID : string := "conference_id".

(** [str(row.get(key, ''))]. *)
Definition field_text (row : gmap string value) (key : string) : string :=
  py_str (row_get row key (Str "")).

(** [create_conference_id(row)], lines 21-27. *)
Definition create_conference_id (row : gmap string value) : string :=
  let conf_name := field_text row COL_EVENT in
  let start_date := field_text row COL_START in
  let location := field_text row COL_LOCATION in
  conf_name +:+ "|" +:+ start_date +:+ "|" +:+ location.

(** ** JSON text of a list of strings

    [json.dump(list(pinned_data), f)] writes [["a", "b"]]: the items between
    brackets, separated by a comma and a space, each between double quotes
    with the escapes of [json.encoder.py_encode_basestring_ascii]
    ([ensure_ascii] is on by default).  A character of a Rocq string stands
    for the code point of the same number. *)

Definition dquote : ascii := "034"%char.
Definition backslash : ascii := "092"%char.

Definition hex_digit (n : N) : ascii :=
  ascii_of_N (if (n <? 10)%N then 48 + n else 87 + n).

(** One character as the encoder writes it: the short escapes, the
    character itself from the space to the tilde, [\u00xx] otherwise. *)
Definition escape (c : ascii) : string :=
  let n := N_of_ascii c in
  if (n =? 34)%N then String backslash (String dquote "")
  else if (n =? 92)%N then String backslash (String backslash "")
  else if (n =? 10)%N then String backslash "n"
  else if (n =? 13)%N then String backslash "r"
  else if (n =? 9)%N then String backslash "t"
  else if (n =? 8)%N then String backslash "b"
  else if (n =? 12)%N then String backslash "f"
  else if ((32 <=? n) && (n <=? 126))%N then String c ""
  else String backslash
         (String "u" (String "0" (String "0"
            (String (hex_digit (n / 16)) (String (hex_digit (n mod 16)) ""))))).

Fixpoint encode_chars (s : string) : string :=
  match s with
  | EmptyString => ""
  | String c s' => escape c +:+ encode_chars s'
  end.

Definition encode_str (s : string) : string :=
  String dquote (encode_chars s +:+ String dquote "").

Fixpoint encode_items (items : list string) : string :=
  match items with
  | [] => ""
  | [x] => encode_str x
  | x :: rest => encode_str x +:+ ", " +:+ encode_items rest
  end.

Definition json_dumps (items : list string) : string :=
  "[" +:+ encode_items items +:+ "]".

(** [json.load] on a document that is an array of strings.  The pinned set
    of the model holds strings, so a text of any other shape (malformed, or
    JSON that is not an array of strings, or a [\u] escape above 255) has
    no reading here: [json_loads] gives [None]. *)

Definition hex_value (c : ascii) : option N :=
  let n := N_of_ascii c in
  if ((48 <=? n) && (n <=? 57))%N then Some (n - 48)%N
  else if ((97 <=? n) && (n <=? 102))%N then Some (n - 87)%N
  else if ((65 <=? n) && (n <=? 70))%N then Some (n - 55)%N
  else None.

(** The character a one-letter escape stands for. *)
Definition unescape (e : ascii) : option ascii :=
  let n := N_of_ascii e in
  if (n =? 34)%N then Some dquote
  else if (n =? 92)%N then Some backslash
  else if (n =? 47)%N then Some "/"%char
  else if (n =? 98)%N then Some "008"%char
  else if (n =? 102)%N then Some "012"%char
  else if (n =? 110)%N then Some "010"%char
  else if (n =? 114)%N then Some "013"%char
  else if (n =? 116)%N then Some "009"%char
  else None.

Definition hex4 (h1 h2 h3 h4 : ascii) : option N :=
  a ← hex_value h1; b ← hex_value h2; c ← hex_value h3; d ← hex_value h4;
  Some (((a * 16 + b) * 16 + c) * 16 + d)%N.

(** [json.decoder.py_scanstring] after the opening quote: the decoded
    string and the text after the closing quote. *)
Fixpoint scanstring (s : string) : option (string * string) :=
  match s with
  | EmptyString => None
  | String c s' =>
      if (N_of_ascii c =? 34)%N then Some (EmptyString, s')
      else if (N_of_ascii c =? 92)%N then
        match s' with
        | EmptyString => None
        | String e s'' =>
            match unescape e with
            | Some d => prod_map (String d) id <$> scanstring s''
            | None =>
                if (N_of_ascii e =? 117)%N then
                  match s'' with
                  | String h1 (String h2 (String h3 (String h4 s3))) =>
                      n ← hex4 h1 h2 h3 h4;
                      if (n <? 256)%N
                      then prod_map (String (ascii_of_N n)) id <$> scanstring s3
                      else None
                  | _ => None
                  end
                else None
            end
        end
      else if (N_of_ascii c <? 32)%N then None
      else prod_map (String c) id <$> scanstring s'
  end.

Definition is_ws (c : ascii) : bool :=
  let n := N_of_ascii c in
  ((n =? 32) || (n =? 9) || (n =? 10) || (n =? 13))%N.

Fixpoint skip_ws (s : string) : string :=
  match s with
  | EmptyString => EmptyString
  | String c s' => if is_ws c then skip_ws s' else s
  end.

(** The items of an array, from the first character of an item to the
    closing bracket; the text after the bracket is returned with them. *)
Fixpoint parse_items (fuel : nat) (s : string) : option (list string * string) :=
  match fuel with
  | O => None
  | S fuel' =>
      match s with
      | EmptyString => None
      | String c s' =>
          if (N_of_ascii c =? 34)%N then
            '(x, rest) ← scanstring s';
            match skip_ws rest with
            | String d rest' =>
                if (N_of_ascii d =? 44)%N then
                  '(xs, rest'') ← parse_items fuel' (skip_ws rest');
                  Some (x :: xs, rest'')
                else if (N_of_ascii d =? 93)%N then Some ([x], rest')
                else None
            | EmptyString => None
            end
          else None
      end
  end.

Definition json_loads (s : string) : option (list string) :=
  match skip_ws s with
  | String c s1 =>
      if (N_of_ascii c =? 91)%N then
        match skip_ws s1 with
        | EmptyString => None
        | String d s2 as items =>
            if (N_of_ascii d =? 93)%N
            then (if bool_decide (skip_ws s2 = EmptyString) then Some [] else None)
            else
              '(xs, rest) ← parse_items (String.length s) items;
              if bool_decide (skip_ws rest = EmptyString) then Some xs else None
        end
      else None
  | EmptyString => None
  end.

(** ** Files, messages and the operating system *)

(** What a file holds: text (the pinned set's JSON, or any bytes that are
    no workbook, such as an HTML error page), or a workbook with its named
    sheets in order. *)
Inductive content : Type :=
| Text (s : string)
| Workbook (sheets : list (string * DataFrame)).

(** The files in the working directory by name, and the messages shown
    with [st.error], oldest first. *)
Record world : Type := mkWorld {
  files : gmap string content;
  errors : list string
}.

Definition EXCEL_FILE : string := "conference_list.xlsx".
Definition PINNED_FILE : string := "pinned_conferences.json".

Definition st_error (msg : string) (w : world) : world :=
  mkWorld (files w) (errors w ++ [msg]).

Definition set_files (fs : gmap string content) (w : world) : world :=
  mkWorld fs (errors w).

(** What the operating system does with one [open(path, 'w')] followed by
    writes: all goes well; [open] itself is refused and nothing changes; or
    the file is opened, which empties it, and the writing breaks after
    [written] characters. *)
Inductive write_outcome : Type :=
| WriteOk
| OpenRefused (msg : string)
| WriteBroken (written : nat) (msg : string).

(** The first [n] characters of a content; part of a workbook is no
    workbook. *)
Definition truncated (n : nat) (c : content) : content :=
  match c with
  | Text s => Text (substring 0 n s)
  | Workbook _ => Text ""
  end.

(** [with open(path, 'w') as f: f.write(data)]. *)
Definition write_file (os : write_outcome) (path : string) (data : content)
    (fs : gmap string content) : result unit * gmap string content :=
  match os with
  | WriteOk => (Ok (), <[path := data]> fs)
  | OpenRefused msg => (Raise (OSError msg), fs)
  | WriteBroken n msg => (Raise (OSError msg), <[path := truncated n data]> fs)
  end.

(** What [requests.get(EXCEL_URL)] comes back with: an exception when the
    server cannot be reached, a response with its status code and body
    otherwise.  [requests.get] does not raise on a status other than 200. *)
Inductive get_outcome : Type :=
| ConnectionFails (msg : string)
| Response (status_code : Z) (body : content).

(** ** The pinned set on disk *)

(** [save_pinned_conferences(pinned_data)], lines 30-38.  [list(pinned_data)]
    is [elements pinned_data]; Python fixes no order for it. *)
Definition save_pinned_conferences (os : write_outcome) (pinned_data : gset string)
    (w : world) : bool * world :=
  match write_file os PINNED_FILE (Text (json_dumps (elements pinned_data))) (files w) with
  | (Ok _, fs) => (true, set_files fs w)
  | (Raise e, fs) =>
      (false, st_error ("Error saving pinned conferences: " +:+ exn_str e) (set_files fs w))
  end.

(** [json.load(f)] on a file of the model. *)
Definition json_load (c : content) : result (list string) :=
  match c with
  | Text s =>
      match json_loads s with
      | Some items => Ok items
      | None => Raise (JSONDecodeError "Expecting value")
      end
  | Workbook _ => Raise (JSONDecodeError "invalid start byte")
  end.

(** [load_pinned_conferences()], lines 41-50. *)
Definition load_pinned_conferences (w : world) : gset string * world :=
  match files w !! PINNED_FILE with
  | Some c =>
      match json_load c with
      | Ok items => (list_to_set items, w)
      | Raise e => (∅, st_error ("Error loading pinned conferences: " +:+ exn_str e) w)
      end
  | None => (∅, w)
  end.

(** ** Refreshing and loading the conference list *)

(** [download_latest_excel()], lines 60-67. *)
Definition download_latest_excel (net : get_outcome) (os : write_outcome)
    (w : world) : (bool * string) * world :=
  match net with
  | ConnectionFails msg => ((false, "Error downloading file: " +:+ msg), w)
  | Response _ body =>
      match write_file os EXCEL_FILE body (files w) with
      | (Ok _, fs) =>
          ((true, "Successfully downloaded the latest conference list!"), set_files fs w)
      | (Raise e, fs) =>
          ((false, "Error downloading file: " +:+ exn_str e), set_files fs w)
      end
  end.

(** [df[column] = f(label, row)] for every row. *)
Definition df_assign (df : DataFrame) (column : string)
    (f : Z → gmap string value → value) : DataFrame :=
  mkDataFrame
    (if decide (column ∈ columns df) then columns df else columns df ++ [column])
    ((λ ir, (ir.1, <[column := f ir.1 ir.2]> ir.2)) <$> rows df).

(** The Series [df.apply(f, axis=1)] hands to [f]: every column of the
    frame, with the row's cell in it. *)
Definition row_series (df : DataFrame) (r : gmap string value) : gmap string value :=
  list_to_map ((λ c, (c, cell r c)) <$> columns df).

(** Rows relabelled 0, 1, 2, ... from [start] ([ignore_index=True]). *)
Fixpoint relabel (start : Z) (rs : list (Z * gmap string value)) : list (Z * gmap string value) :=
  match rs with
  | [] => []
  | (_, r) :: rest => (start, r) :: relabel (start + 1) rest
  end.

(** The columns of [pd.concat]: those of the first frame, then the new ones
    of each next frame. *)
Definition union_columns (frames : list DataFrame) : list string :=
  foldl (λ acc df, acc ++ filter (λ c, c ∉ acc) (columns df)) [] frames.

(** [pd.concat(all_data, ignore_index=True)]. *)
Definition concat_frames (frames : list DataFrame) : result DataFrame :=
  match frames with
  | [] => Raise (ValueError "No objects to concatenate")
  | _ => Ok (mkDataFrame (union_columns frames) (relabel 0 (concat (rows <$> frames))))
  end.

(** [pd.ExcelFile(EXCEL_FILE)]. *)
Definition ExcelFile (c : content) : result (list (string * DataFrame)) :=
  match c with
  | Workbook sheets => Ok sheets
  | Text _ => Raise (BadWorkbook "File is not a zip file")
  end.

(** Line 94: [df['conference_id'] = df.apply(create_conference_id, axis=1)]. *)
Definition add_conference_id (df : DataFrame) : DataFrame :=
  df_assign df COL_ID (λ _ r, Str (create_conference_id (row_series df r))).

Section Loader.

(** [pd.to_datetime(v, errors='coerce')] on one cell: pandas' date parser. *)
Variable to_datetime : value → value.

(** [df[column] = pd.to_datetime(df[column], errors='coerce')]. *)
Definition coerce_dates (df : DataFrame) (column : string) : result DataFrame :=
  _ ← df_column df column;
  Ok (df_assign df column (λ _ r, to_datetime (cell r column))).

(** Lines 77-96 of [load_conference_data], from the opened workbook on. *)
Definition combine_sheets (c : content) : result DataFrame :=
  sheets ← ExcelFile c;
  let all_data :=
    (λ s, df_assign s.2 COL_YEAR (λ _ _, Str s.1))
      <$> filter (λ s, s.1 ≠ "Header") sheets in
  combined_df ← concat_frames all_data;
  combined_df ← coerce_dates combined_df COL_START;
  combined_df ← coerce_dates combined_df COL_END;
  Ok (add_conference_id combined_df).

(** [load_conference_data()], lines 71-96. *)
Definition load_conference_data (w : world) : result DataFrame * world :=
  match files w !! EXCEL_FILE with
  | None => (Ok empty_frame, st_error ("Conference list file not found: " +:+ EXCEL_FILE) w)
  | Some c => (combine_sheets c, w)
  end.

End Loader.

(** ** CPython's set of row labels

    [fuzzy_search] collects the labels of the matching rows in a Python
    [set] and returns [list(matching_indices)]; the rows of the search
    result come in the order of that list.  The order is the slot order of
    CPython's hash table ([Objects/setobject.c]): an [int] hashes to itself
    (modulo 2^61 - 1), the table starts with 8 slots, a key goes to the
    first free slot of its probe sequence, and the table is rebuilt four
    times larger when three fifths of it are in use.  No key is ever
    removed from [matching_indices], so there are no dummy entries. *)

Module PySet.

Definition LINEAR_PROBES : Z := 9.
Definition PERTURB_SHIFT : Z := 5.
Definition PySet_MINSIZE : nat := 8.
Definition PyHASH_MODULUS : Z := 2 ^ 61 - 1.

Record t : Type := mk { table : list (option Z) }.

(** [set()]. *)
Definition empty : t := mk (replicate PySet_MINSIZE None).

(** [hash(k)] for an [int]. *)
Definition hash (k : Z) : Z :=
  let h := Z.sgn k * (Z.abs k mod PyHASH_MODULUS) in
  if h =? -1 then -2 else h.

(** The hash as the unsigned [size_t] the probe sequence starts from. *)
Definition as_size_t (h : Z) : Z := h mod 2 ^ 64.

(** [list(s)]: the keys in slot order. *)
Definition to_list (s : t) : list Z := omap id (table s).

Definition used (s : t) : nat := length (to_list s).

Definition contains (k : Z) (s : t) : bool := bool_decide (k ∈ to_list s).

(** The first free slot among the [n] slots from [i] on. *)
Fixpoint first_free (tbl : list (option Z)) (i n : nat) : option nat :=
  match n with
  | O => None
  | S n' =>
      match tbl !! i with
      | Some None => Some i
      | _ => first_free tbl (S i) n'
      end
  end.

(** The probe loop of [set_insert_clean] (and of [set_add_entry] for a key
    that is not in the table): slot [i] and, when they do not run past the
    end of the table, the 9 slots after it; then the next [i] from the
    perturbed recurrence.  CPython's loop has no bound; here [fuel] bounds
    the number of rounds. *)
Fixpoint probe (fuel : nat) (tbl : list (option Z)) (mask i perturb : Z) : option nat :=
  match fuel with
  | O => None
  | S fuel' =>
      let probes := if bool_decide (i + LINEAR_PROBES ≤ mask) then LINEAR_PROBES else 0 in
      match first_free tbl (Z.to_nat i) (S (Z.to_nat probes)) with
      | Some j => Some j
      | None =>
          let perturb' := Z.shiftr perturb PERTURB_SHIFT in
          probe fuel' tbl mask (Z.land (i * 5 + 1 + perturb') mask) perturb'
      end
  end.

(** [set_insert_clean(table, mask, key, hash)].  Should the bound on the
    probe loop be reached, the key is put at the end, so that no key is
    ever lost. *)
Definition insert_clean (k : Z) (tbl : list (option Z)) : list (option Z) :=
  let mask := Z.of_nat (length tbl) - 1 in
  let h := as_size_t (hash k) in
  match probe (64 + length tbl) tbl mask (Z.land h mask) h with
  | Some j => <[j := Some k]> tbl
  | None => tbl ++ [Some k]
  end.

(** [while (newsize <= minused) newsize <<= 1]. *)
Fixpoint grow (fuel newsize minused : nat) : nat :=
  match fuel with
  | O => newsize
  | S fuel' =>
      if bool_decide (newsize ≤ minused)%nat
      then grow fuel' (2 * newsize)%nat minused
      else newsize
  end.

(** [set_table_resize(so, minused)]: a fresh table, the keys put back in
    the slot order of the old one. *)
Definition resize (tbl : list (option Z)) (minused : nat) : list (option Z) :=
  let newsize := grow (S minused) PySet_MINSIZE minused in
  foldl (λ acc k, insert_clean k acc) (replicate newsize None) (omap id tbl).

(** [s.add(k)]: [set_add_entry]. *)
Definition add (k : Z) (s : t) : t :=
  if contains k s then s
  else
    let tbl := insert_clean k (table s) in
    let fill := S (used s) in
    let mask := (length (table s) - 1)%nat in
    if bool_decide (fill * 5 < mask * 3)%nat then mk tbl
    else mk (resize tbl (if bool_decide (50000 < Z.of_nat fill)%Z
                         then fill * 2 else fill * 4)%nat).

End PySet.

(** ** Fuzzy search *)

(** [s.lower()] on the code points below 256: the ASCII capitals and the
    Latin-1 capitals (all of 192..222 but the multiplication sign). *)
Definition lower_char (c : ascii) : ascii :=
  let n := N_of_ascii c in
  if (((65 <=? n) && (n <=? 90)) || ((192 <=? n) && (n <=? 222) && negb (n =? 215)))%N
  then ascii_of_N (n + 32)
  else c.

Fixpoint lower (s : string) : string :=
  match s with
  | EmptyString => EmptyString
  | String c s' => String (lower_char c) (lower s')
  end.

Section Search.

(** [fuzz.partial_ratio] of the fuzzywuzzy library: a score from 0 to 100. *)
Variable partial_ratio : string → string → Z.

(** The inner loop, lines 117-121: one column's values that are not null. *)
Definition scan_values (search_term : string) (threshold : Z)
    (valid_data : list (Z * value)) (matching_indices : PySet.t) : PySet.t :=
  foldl (λ acc iv,
           let score := partial_ratio (lower search_term) (lower (py_str iv.2)) in
           if bool_decide (threshold ≤ score) then PySet.add iv.1 acc else acc)
        matching_indices valid_data.

(** The outer loop, lines 109-121. *)
Fixpoint scan_columns (search_term : string) (df : DataFrame) (threshold : Z)
    (cols : list string) (matching_indices : PySet.t) : result PySet.t :=
  match cols with
  | [] => Ok matching_indices
  | column :: rest =>
      series ← df_column df column;
      let valid_data := dropna series in
      if bool_decide (length valid_data = 0%nat)
      then scan_columns search_term df threshold rest matching_indices
      else scan_columns search_term df threshold rest
             (scan_values search_term threshold valid_data matching_indices)
  end.

(** [fuzzy_search(search_term, df, columns, threshold)], lines 99-123. *)
Definition fuzzy_search (search_term : string) (df : DataFrame) (cols : list string)
    (threshold : Z) : result (list Z) :=
  if bool_decide (search_term = "") then Ok (index df)
  else
    matching_indices ← scan_columns search_term df threshold cols PySet.empty;
    Ok (PySet.to_list matching_indices).

(** ** The filter pipeline of the search tab *)

(** The rows [df.loc[labels]] selects: for each label in turn the rows that
    carry it; [KeyError] for a label no row carries. *)
Fixpoint loc_rows (rs : list (Z * gmap string value)) (labels : list Z)
    : result (list (Z * gmap string value)) :=
  match labels with
  | [] => Ok []
  | l :: rest =>
      match filter (λ ir, ir.1 = l) rs with
      | [] => Raise (KeyError (pretty l))
      | found => tail ← loc_rows rs rest; Ok (found ++ tail)
      end
  end.

(** [df.loc[labels]]. *)
Definition df_loc (df : DataFrame) (labels : list Z) : result DataFrame :=
  selected ← loc_rows (rows df) labels;
  Ok (mkDataFrame (columns df) selected).

(** [df[df[column] == text]]. *)
Definition df_where_eq (df : DataFrame) (column text : string) : result DataFrame :=
  if decide (column ∈ columns df)
  then Ok (mkDataFrame (columns df) (filter (λ ir, cell ir.2 column = Str text) (rows df)))
  else Raise (KeyError column).

(** Lines 201-217: the visible rows for the search text, the threshold and
    the selected country and year. *)
Definition filter_pipeline (df : DataFrame) (search_text : string) (fuzzy_threshold : Z)
    (selected_country selected_year : string) : result DataFrame :=
  filtered_df ←
    (if bool_decide (search_text = "") then Ok df
     else
       matching_indices ←
         fuzzy_search search_text df [COL_EVENT; COL_LOCATION] fuzzy_threshold;
       df_loc df matching_indices);
  filtered_df ←
    (if bool_decide (selected_country = "All") then Ok filtered_df
     else df_where_eq filtered_df COL_COUNTRY selected_country);
  if bool_decide (selected_year = "All") then Ok filtered_df
  else df_where_eq filtered_df COL_YEAR selected_year.

End Search.

(** ** Reconciling the pin check boxes *)

(** [df.empty]: no row or no column. *)
Definition df_empty (df : DataFrame) : bool :=
  bool_decide (rows df = [] ∨ columns df = []).

(** [df[cols]]: [KeyError] when the frame lacks one of the columns. *)
Definition df_select (df : DataFrame) (cols : list string) : result DataFrame :=
  match filter (λ c, c ∉ columns df) cols with
  | [] => Ok (mkDataFrame cols (rows df))
  | missing :: _ => Raise (KeyError missing)
  end.

(** The columns of the grid besides the check box, lines 234-235. *)
Definition columns_to_display : list string :=
  [COL_EVENT; COL_LOCATION; COL_COUNTRY; COL_START; COL_END; "Number of abstracts"; COL_YEAR].

(** [display_df['Pin'] = display_df['conference_id'].isin(pinned)]: the
    check box of every visible row, by label. *)
Definition pin_column (display_df : DataFrame) (pinned : gset string) : list (Z * bool) :=
  (λ ir, (ir.1, bool_decide (py_str (cell ir.2 COL_ID) ∈ pinned))) <$> rows display_df.

(** The grid after the user has clicked the check boxes of the rows
    labelled [toggled]: [st.data_editor] returns the same rows with those
    boxes flipped. *)
Definition data_editor (shown : list (Z * bool)) (toggled : list Z) : list (Z * bool) :=
  (λ ib, (ib.1, if bool_decide (ib.1 ∈ toggled) then negb ib.2 else ib.2)) <$> shown.

(** Line 269: the identity keys of the rows whose box is checked in the
    edited grid. *)
Definition current_pinned (display_df : DataFrame) (edited_pin : list (Z * bool))
    : result (gset string) :=
  _ ← df_column display_df COL_ID;
  selected ← loc_rows (rows display_df) (filter (λ ib, ib.2 = true) edited_pin).*1;
  Ok (list_to_set ((λ ir, py_str (cell ir.2 COL_ID)) <$> selected)).

(** Lines 223-273: what showing the search tab does to the pinned set of
    the session and to the file, given the visible rows and the user's
    clicks.  Nothing happens when no row is visible. *)
Definition reconcile (os : write_outcome) (filtered_df : DataFrame) (toggled : list Z)
    (pinned : gset string) (w : world) : result (gset string * world) :=
  if df_empty filtered_df then Ok (pinned, w)
  else
    _ ← df_column filtered_df COL_ID;
    _ ← df_select filtered_df columns_to_display;
    let edited_pin := data_editor (pin_column filtered_df pinned) toggled in
    current ← current_pinned filtered_df edited_pin;
    if bool_decide (current ≠ pinned)
    then Ok (current, (save_pinned_conferences os current w).2)
    else Ok (pinned, w).

(** ** The pinned tab *)

(** The identity keys in a column of rows, as [tolist()] hands them to the
    pinned set: a cell that is no string is no member of a set of strings. *)
Definition string_ids (rs : list (Z * gmap string value)) : list string :=
  omap (λ ir, match cell ir.2 COL_ID with Str s => Some s | _ => None end) rs.

(** [v in pinned] for one cell: only a string can be in a set of strings. *)
Definition isin (v : value) (pinned : gset string) : bool :=
  match v with
  | Str s => bool_decide (s ∈ pinned)
  | _ => false
  end.

(** Line 280: [df[df['conference_id'].isin(pinned)]]. *)
Definition pinned_rows (df : DataFrame) (pinned : gset string) : result DataFrame :=
  _ ← df_column df COL_ID;
  Ok (mkDataFrame (columns df)
        (filter (λ ir, isin (cell ir.2 COL_ID) pinned = true) (rows df))).

(** [pinned.discard(conf_id)] for every selected key, lines 332-333. *)
Definition discard_all (pinned : gset string) (ids : list string) : gset string :=
  foldl (λ acc conf_id, acc ∖ {[conf_id]}) pinned ids.

(** Lines 278-339, when the button "Unpin Selected" is pressed: the rows of
    the table that are pinned are shown with an empty check box each, the
    user has clicked the boxes of the rows labelled [toggled], and the keys
    of the checked rows leave the pinned set, which is saved.  Nothing
    happens when nothing is pinned (the tab shows a hint only) or when no
    box is checked (a warning is shown).  [st.warning], [st.success] and
    [st.info] are not recorded. *)
Definition unpin_selected (os : write_outcome) (df : DataFrame) (toggled : list Z)
    (pinned : gset string) (w : world) : result (gset string * world) :=
  if bool_decide (pinned = ∅) then Ok (pinned, w)
  else
    pinned_df ← pinned_rows df pinned;
    _ ← df_select pinned_df columns_to_display;
    let edited_select := data_editor ((λ ir, (ir.1, false)) <$> rows pinned_df) toggled in
    match (filter (λ ib, ib.2 = true) edited_select).*1 with
    | [] => Ok (pinned, w)
    | selected =>
        selected_rows ← loc_rows (rows pinned_df) selected;
        let pinned' := discard_all pinned (string_ids selected_rows) in
        Ok (pinned', (save_pinned_conferences os pinned' w).2)
    end.

(** ** The login of [auth.py] *)

Module Auth.

(** [st.session_state] as [auth.py] uses it: the two keys it reads and
    writes, each absent or present. *)
Record session : Type := mkSession {
  authenticated : option bool;
  username : option string
}.

(** The pair read from the environment or the secrets when the module is
    imported. *)
Record credentials : Type := mkCredentials {
  AUTH_USERNAME : string;
  AUTH_PASSWORD : string
}.

(** [verify_user(username, password)]. *)
Definition verify_user (c : credentials) (user password : string) : bool :=
  bool_decide (user = AUTH_USERNAME c) && bool_decide (password = AUTH_PASSWORD c).

(** What the login form comes back with in one run of the script. *)
Inductive form : Type :=
| NotSubmitted
| Submitted (user password : string).

(** How a run of [check_authentication] ends: the page body is rendered,
    the script stops after the login page ([st.stop]), with or without the
    message "Invalid username or password", or it starts over
    ([st.rerun]). *)
Inductive outcome : Type :=
| Body
| Stopped (invalid : bool)
| Rerun.

(** [show_login_page()] followed by [st.stop()]. *)
Definition show_login_page (c : credentials) (f : form) (ss : session) : session * outcome :=
  match f with
  | NotSubmitted => (ss, Stopped false)
  | Submitted user password =>
      if verify_user c user password
      then (mkSession (Some true) (Some user), Rerun)
      else (ss, Stopped true)
  end.

(** [check_authentication()]. *)
Definition check_authentication (c : credentials) (f : form) (ss : session)
    : session * outcome :=
  let ss :=
    match authenticated ss with
    | None => mkSession (Some false) (username ss)
    | Some _ => ss
    end in
  if negb (default false (authenticated ss))
  then show_login_page c f ss
  else (ss, Body).

(** [logout()]: ends in [st.rerun()]. *)
Definition logout (ss : session) : session :=
  mkSession (Some false) None.

(** What a user does between two runs of a guarded page. *)
Inductive event : Type :=
| Visit (f : form)
| Logout.

Definition step (c : credentials) (ss : session) (e : event) : session :=
  match e with
  | Visit f => (check_authentication c f ss).1
  | Logout => logout ss
  end.

(** A session after a sequence of events, from the empty session state. *)
Definition run (c : credentials) (events : list event) : session :=
  foldl (step c) (mkSession None None) events.

End Auth.

(** ** Vocabulary of the statements *)

Section SearchVocabulary.

Variable partial_ratio : string → string → Z.

(** A label matches when a row that carries it holds, in one of the
    searched columns, a value that is not null and scores at least the
    threshold against the search term. *)
Definition matches_label (search_term : string) (df : DataFrame) (cols : list string)
    (threshold : Z) (x : Z) : Prop :=
  ∃ column r,
    column ∈ cols ∧ (x, r) ∈ rows df ∧ isna (cell r column) = false ∧
    threshold ≤ partial_ratio (lower search_term) (lower (py_str (cell r column))).

(** The first searched column the frame does not have, if any. *)
Definition missing_column (df : DataFrame) (cols : list string) : option string :=
  head (filter (λ c, c ∉ columns df) cols).

End SearchVocabulary.

(** What the intermediate frames of the pipeline have in common with the
    table [df]: the same columns, and the rows that pass a test [P], in the
    order of the table when [in_order] holds and in some order otherwise. *)
Definition selects (df fd : DataFrame) (P : Z * gmap string value → Prop)
    `{∀ ir, Decision (P ir)} (in_order : Prop) : Prop :=
  columns fd = columns df ∧
  rows fd ≡ₚ filter P (rows df) ∧
  (in_order → rows fd = filter P (rows df)).

(** The box of a row in the edited grid: checked when its key is pinned,
    the other way round when the user clicked it. *)
Definition box_checked (pinned : gset string) (toggled : list Z) (x : Z)
    (r : gmap string value) : bool :=
  if bool_decide (x ∈ toggled)
  then negb (bool_decide (py_str (cell r COL_ID) ∈ pinned))
  else bool_decide (py_str (cell r COL_ID) ∈ pinned).

(** A session in which a login with the configured pair was submitted and
    no logout followed. *)
Definition logged_in (c : Auth.credentials) (events : list Auth.event) : Prop :=
  ∃ before user password after,
    events = before ++ Auth.Visit (Auth.Submitted user password) :: after ∧
    Auth.verify_user c user password = true ∧
    Auth.Logout ∉ after.

(** A text without the bar that separates the parts of an identity key. *)
Fixpoint bar_free (s : string) : bool :=
  match s with
  | EmptyString => true
  | String c s' => negb (bool_decide (c = "|"%char)) && bar_free s'
  end.

(** ** Example data *)

(** A scorer for the examples: 100 for equal strings, 0 otherwise.
    [fuzz.partial_ratio] gives 100 to equal strings that are not empty and
    0 to strings without a common character; the examples score no other
    pair. *)
Definition exact_or_nothing (a b : string) : Z :=
  if bool_decide (a = b) then 100 else 0.

Definition conference (name start location country year : string) : gmap string value :=
  <[COL_EVENT := Str name]> (<[COL_START := Timestamp start]>
  (<[COL_END := Timestamp start]> (<[COL_LOCATION := Str location]>
  (<[COL_COUNTRY := Str country]> (<[COL_YEAR := Str year]> ∅))))).

Definition table_columns : list string :=
  [COL_EVENT; COL_START; COL_END; COL_LOCATION; COL_COUNTRY; "Number of abstracts"; COL_YEAR].

Definition table_of (confs : list (gmap string value)) : DataFrame :=
  add_conference_id (mkDataFrame table_columns (relabel 0 ((λ r, (0, r)) <$> confs))).

Definition ieee_oslo : gmap string value :=
  conference "IEEE" "2024-05-01 00:00:00" "Oslo" "Norway" "2024".
Definition acm_oslo : gmap string value :=
  conference "ACM" "2024-06-01 00:00:00" "Oslo" "Norway" "2024".

(** Nine conferences; the ACM ones are at labels 1 and 8. *)
Definition nine_conferences : DataFrame :=
  table_of [ieee_oslo; acm_oslo; ieee_oslo; ieee_oslo; ieee_oslo;
            ieee_oslo; ieee_oslo; ieee_oslo; acm_oslo].

(** The two conferences of the specification's scenario, on the sheets of
    two years. *)
Definition two_conferences : DataFrame :=
  table_of [conference "EuroConf" "2024-05-01 00:00:00" "Paris" "France" "2024";
            conference "EuroConf2" "2025-05-01 00:00:00" "Paris" "France" "2025"].

(** A row without name and location. *)
Definition unnamed_conference : gmap string value :=
  <[COL_START := Timestamp "2024-07-01 00:00:00"]> (<[COL_COUNTRY := Str "Norway"]>
  (<[COL_YEAR := Str "2024"]> ∅)).

Definition acm_and_unnamed : DataFrame := table_of [acm_oslo; unnamed_conference].

Definition euroconf_paris : gmap string value :=
  <[COL_EVENT := Str "EuroConf"]> (<[COL_START := Timestamp "2024-05-01 00:00:00"]>
  (<[COL_LOCATION := Str "Paris"]> (<[COL_COUNTRY := Str "France"]> ∅))).

Definition euroconf_paris_other_fields : gmap string value :=
  <[COL_EVENT := Str "EuroConf"]> (<[COL_START := Timestamp "2024-05-01 00:00:00"]>
  (<[COL_LOCATION := Str "Paris"]> (<[COL_COUNTRY := Str "FR"]>
  (<[COL_END := Timestamp "2024-05-03 00:00:00"]> (<[COL_YEAR := Str "2024"]> ∅))))).

Definition key_euroconf : string := "EuroConf|2024-05-01 00:00:00|Paris".
Definition key_euroconf2 : string := "EuroConf2|2025-05-01 00:00:00|Paris".

Definition sheet_2024 : DataFrame :=
  mkDataFrame [COL_EVENT; COL_START; COL_END; COL_LOCATION; COL_COUNTRY]
    [(0, euroconf_paris)].

Definition not_found_page : content := Text "<html>404 Not Found</html>".

(** * Properties *)

(** ** The identity key *)

Lemma create_conference_id_format (row : gmap string value) :
  create_conference_id row =
  field_text row COL_EVENT +:+ "|" +:+ field_text row COL_START +:+ "|" +:+
  field_text row COL_LOCATION.
Proof. reflexivity. Qed.

(** A column other than the three the key reads does not matter, whether
    it is set, changed or removed. *)
Lemma field_text_insert_ne (row : gmap string value) (key column : string) (v : value) :
  column ≠ key → field_text (<[column := v]> row) key = field_text row key.
Proof.
  intros Hne. unfold field_text, row_get. by rewrite lookup_insert_ne.
Qed.

Lemma create_conference_id_insert_other (row : gmap string value) (column : string) (v : value) :
  column ∉ [COL_EVENT; COL_START; COL_LOCATION] →
  create_conference_id (<[column := v]> row) = create_conference_id row.
Proof.
  intros Hnot. rewrite !create_conference_id_format.
  rewrite !field_text_insert_ne; [done | | |]; intros ->; apply Hnot; set_solver.
Qed.

(** C8.  Two rows whose name, start-date text and location are equal have
    the same identity key, whatever their other fields hold, and the key is
    the name, a bar, the start date as text, a bar and the location. *)
Theorem create_conference_id_name_date_location (r1 r2 : gmap string value) :
  field_text r1 COL_EVENT = field_text r2 COL_EVENT →
  field_text r1 COL_START = field_text r2 COL_START →
  field_text r1 COL_LOCATION = field_text r2 COL_LOCATION →
  create_conference_id r1 = create_conference_id r2 ∧
  create_conference_id r1 =
    field_text r1 COL_EVENT +:+ "|" +:+ field_text r1 COL_START +:+ "|" +:+
    field_text r1 COL_LOCATION.
Proof.
  intros Hname Hdate Hloc. split; [| apply create_conference_id_format].
  rewrite !create_conference_id_format. by rewrite Hname, Hdate, Hloc.
Qed.

Lemma create_conference_id_name_date_location_witness :
  create_conference_id euroconf_paris = create_conference_id euroconf_paris_other_fields ∧
  create_conference_id euroconf_paris = "EuroConf|2024-05-01 00:00:00|Paris".
Proof.
  apply (create_conference_id_name_date_location euroconf_paris euroconf_paris_other_fields);
    reflexivity.
Defined.

(** ** JSON: what is written is what is read *)

Lemma append_nil_l (s : string) : "" +:+ s = s.
Proof. reflexivity. Qed.

Lemma append_cons (c : ascii) (a b : string) : String c a +:+ b = String c (a +:+ b).
Proof. reflexivity. Qed.

Lemma append_assoc (a b c : string) : (a +:+ b) +:+ c = a +:+ (b +:+ c).
Proof.
  induction a as [| x a IH]; [done |].
  rewrite !append_cons. by f_equal.
Qed.

Lemma length_append (a b : string) :
  String.length (a +:+ b) = (String.length a + String.length b)%nat.
Proof.
  induction a as [| x a IH]; [done |].
  rewrite append_cons. cbn [String.length]. rewrite IH. reflexivity.
Qed.

(** Reading one escaped character gives the character back. *)
Lemma scanstring_escape (c : ascii) (text : string) :
  scanstring (escape c +:+ text) = prod_map (String c) id <$> scanstring text.
Proof.
  destruct c as [[] [] [] [] [] [] [] []]; reflexivity.
Qed.

Lemma scanstring_encode_chars (s rest : string) :
  scanstring (encode_chars s +:+ String dquote rest) = Some (s, rest).
Proof.
  induction s as [| c s IH]; [reflexivity |].
  cbn [encode_chars]. rewrite append_assoc, scanstring_escape, IH. reflexivity.
Qed.

(** An encoded string starts with a quote; after the quote comes what
    [scanstring] reads. *)
Lemma encode_str_append (s rest : string) :
  encode_str s +:+ rest = String dquote (encode_chars s +:+ String dquote rest).
Proof. unfold encode_str. rewrite append_cons, append_assoc. reflexivity. Qed.

Lemma encode_items_cons2 (x y : string) (items : list string) :
  encode_items (x :: y :: items) = encode_str x +:+ ", " +:+ encode_items (y :: items).
Proof. reflexivity. Qed.

Lemma encode_items_starts_with_quote (x : string) (items : list string) (rest : string) :
  ∃ text, encode_items (x :: items) +:+ rest = String dquote text.
Proof.
  destruct items as [| y items].
  - cbn [encode_items]. rewrite encode_str_append. eauto.
  - rewrite encode_items_cons2, append_assoc, encode_str_append. eauto.
Qed.

Lemma parse_items_encode (items : list string) (fuel : nat) (rest : string) :
  items ≠ [] → (length items ≤ fuel)%nat →
  parse_items fuel (encode_items items +:+ String "]" rest) = Some (items, rest).
Proof.
  revert fuel. induction items as [| x items IH]; intros fuel Hne Hfuel; [done |].
  destruct fuel as [| fuel]; [simpl in Hfuel; lia |].
  destruct items as [| y items].
  - cbn [encode_items]. rewrite encode_str_append.
    cbn [parse_items]. rewrite scanstring_encode_chars. reflexivity.
  - rewrite encode_items_cons2, !append_assoc, encode_str_append.
    cbn [parse_items]. rewrite scanstring_encode_chars.
    destruct (encode_items_starts_with_quote y items (String "]" rest)) as [text Htext].
    specialize (IH fuel ltac:(done) ltac:(simpl in *; lia)).
    rewrite Htext in *.
    transitivity (parse_items fuel (String dquote text)
                  ≫= λ '(xs, rest''), Some (x :: xs, rest'')); [reflexivity |].
    rewrite IH. reflexivity.
Qed.

Lemma length_encode_items (items : list string) :
  (length items ≤ String.length (encode_items items))%nat.
Proof.
  induction items as [| x [| y items] IH]; [simpl; lia | simpl; lia |].
  rewrite encode_items_cons2, !length_append. simpl in *. lia.
Qed.

(** [json.loads(json.dumps(items)) == items] for a list of strings. *)
Lemma json_loads_dumps (items : list string) :
  json_loads (json_dumps items) = Some items.
Proof.
  destruct items as [| x items]; [reflexivity |].
  unfold json_dumps, json_loads.
  assert (Hfuel : (length (x :: items)
                   ≤ String.length ("[" +:+ encode_items (x :: items) +:+ "]"))%nat).
  { rewrite !length_append. pose proof (length_encode_items (x :: items)). lia. }
  revert Hfuel. generalize (String.length ("[" +:+ encode_items (x :: items) +:+ "]")).
  intros fuel Hfuel.
  pose proof (parse_items_encode (x :: items) fuel "" ltac:(done) Hfuel) as Hparse.
  destruct (encode_items_starts_with_quote x items "]") as [text Htext].
  rewrite append_cons, append_nil_l, Htext in *.
  transitivity (parse_items fuel (String dquote text)
                ≫= λ '(xs, rest),
                     if bool_decide (skip_ws rest = EmptyString) then Some xs else None);
    [reflexivity |].
  rewrite Hparse. reflexivity.
Qed.

(** ** The pinned set on disk *)

Lemma load_pinned_conferences_of_text (w : world) (items : list string) :
  files w !! PINNED_FILE = Some (Text (json_dumps items)) →
  load_pinned_conferences w = (list_to_set items, w).
Proof.
  intros Hfile. unfold load_pinned_conferences, json_load.
  by rewrite Hfile, json_loads_dumps.
Qed.

Lemma load_after_write (pinned : gset string) (w : world) :
  load_pinned_conferences
    (set_files (<[PINNED_FILE := Text (json_dumps (elements pinned))]> (files w)) w)
  = (pinned,
     set_files (<[PINNED_FILE := Text (json_dumps (elements pinned))]> (files w)) w).
Proof.
  rewrite (load_pinned_conferences_of_text _ (elements pinned)).
  - by rewrite list_to_set_elements_L.
  - cbn [set_files files]. apply lookup_insert_eq.
Qed.



(** C4, as the code has it.  A save never raises: it returns [True] or
    [False].  On [True] the file holds the new set and nothing is reported.
    On [False] an error is reported; the files are untouched when [open]
    was refused, but when the writing broke after [open] had emptied the
    file, the file holds only the part of the new text that was written. *)
Theorem save_pinned_conferences_outcome (os : write_outcome) (pinned : gset string)
    (w : world) :
  let text := json_dumps (elements pinned) in
  let r := save_pinned_conferences os pinned w in
  (r.1 = true ∧ os = WriteOk ∧
   files r.2 = <[PINNED_FILE := Text text]> (files w) ∧
   errors r.2 = errors w ∧
   (load_pinned_conferences r.2).1 = pinned)
  ∨
  (r.1 = false ∧
   (∃ msg, errors r.2 = errors w ++ ["Error saving pinned conferences: " +:+ msg]) ∧
   ((∃ msg, os = OpenRefused msg ∧ files r.2 = files w)
    ∨ (∃ n msg, os = WriteBroken n msg ∧
         files r.2 = <[PINNED_FILE := Text (substring 0 n text)]> (files w)))).
Proof.
  intros text r. subst r. destruct os as [| msg | n msg].
  - left. repeat split.
    exact (f_equal fst (load_after_write pinned w)).
  - right. repeat split; [by exists msg |]. left. by exists msg.
  - right. repeat split; [by exists msg |]. right. by exists n, msg.
Qed.

(** Against C4, a writing that breaks: the save of the second key
    returns [False], and the file that held the first key is empty, so
    that the next load reports an error and returns the empty set. *)
Lemma save_broken_write_loses_previous_pins :
  let w0 := mkWorld {[PINNED_FILE := Text (json_dumps [key_euroconf])]} [] in
  let r := save_pinned_conferences (WriteBroken 0 "No space left on device")
             {[key_euroconf2]} w0 in
  (load_pinned_conferences w0).1 = {[key_euroconf]} ∧
  r.1 = false ∧
  files r.2 !! PINNED_FILE = Some (Text "") ∧
  files r.2 ≠ files w0 ∧
  (load_pinned_conferences r.2).1 = ∅.
Proof.
  cbv zeta. split; [| split; [| split; [| split]]].
  - by vm_compute.
  - reflexivity.
  - reflexivity.
  - intros Heq. apply (f_equal (λ fs, fs !! PINNED_FILE)) in Heq.
    vm_compute in Heq. discriminate.
  - by vm_compute.
Qed.

(** ** Refreshing and loading the conference list *)

(** A server that cannot be reached: reported as a message, nothing on
    disk is touched. *)
Lemma download_latest_excel_connection_fails (msg : string) (os : write_outcome)
    (w : world) :
  download_latest_excel (ConnectionFails msg) os w =
  ((false, "Error downloading file: " +:+ msg), w).
Proof. reflexivity. Qed.

(** Any response is stored, whatever its status code. *)
Lemma download_latest_excel_stores_any_response (status_code : Z) (body : content)
    (w : world) :
  download_latest_excel (Response status_code body) WriteOk w =
  ((true, "Successfully downloaded the latest conference list!"),
   set_files (<[EXCEL_FILE := body]> (files w)) w).
Proof. reflexivity. Qed.

(** C3, at a response with status 404.  The function reports success and
    the workbook that was on disk is replaced by the error page. *)
Theorem download_latest_excel_http_404 :
  let w0 := mkWorld {[EXCEL_FILE := Workbook [("2024", sheet_2024)]]} [] in
  let r := download_latest_excel (Response 404 not_found_page) WriteOk w0 in
  r.1 = (true, "Successfully downloaded the latest conference list!") ∧
  files w0 !! EXCEL_FILE = Some (Workbook [("2024", sheet_2024)]) ∧
  files r.2 !! EXCEL_FILE = Some not_found_page.
Proof. repeat split. Qed.

Section LoaderFacts.

Variable to_datetime : value → value.

(** No file: an empty table and a message. *)
Lemma load_conference_data_absent (w : world) :
  files w !! EXCEL_FILE = None →
  load_conference_data to_datetime w =
  (Ok empty_frame, st_error "Conference list file not found: conference_list.xlsx" w).
Proof. intros Hnone. unfold load_conference_data. by rewrite Hnone. Qed.

(** C5, at a file that is present and is no workbook.  The exception of
    [pd.ExcelFile] leaves [load_conference_data]; no empty table is
    returned and nothing is reported. *)
Theorem load_conference_data_unreadable_raises (s : string)
    (fs : gmap string content) (errs : list string) :
  load_conference_data to_datetime (mkWorld (<[EXCEL_FILE := Text s]> fs) errs) =
  (Raise (BadWorkbook "File is not a zip file"),
   mkWorld (<[EXCEL_FILE := Text s]> fs) errs).
Proof.
  unfold load_conference_data. cbn [files]. by rewrite lookup_insert_eq.
Qed.

(** The two together: a refresh answered with an error page reports
    success, and the load after it raises. *)
Lemma refresh_404_then_load_raises (w : world) :
  let r := download_latest_excel (Response 404 not_found_page) WriteOk w in
  r.1.1 = true ∧
  (load_conference_data to_datetime r.2).1 = Raise (BadWorkbook "File is not a zip file").
Proof.
  split; [reflexivity |].
  unfold load_conference_data. cbn. by rewrite lookup_insert_eq.
Qed.

(** The labels of a loaded table are 0, 1, 2, ...: they are distinct. *)
Lemma relabel_lower_bound (start : Z) (rs : list (Z * gmap string value)) (x : Z) :
  x ∈ (relabel start rs).*1 → start ≤ x.
Proof.
  revert start. induction rs as [| [i r] rs IH]; intros start; cbn.
  - by intros Hin%elem_of_nil.
  - intros [-> | Hin]%elem_of_cons; [lia |]. apply IH in Hin. lia.
Qed.

Lemma relabel_NoDup (start : Z) (rs : list (Z * gmap string value)) :
  NoDup (relabel start rs).*1.
Proof.
  revert start. induction rs as [| [i r] rs IH]; intros start; cbn; [constructor |].
  apply NoDup_cons_2; [| apply IH].
  intros Hin%relabel_lower_bound. lia.
Qed.

Lemma index_df_assign (df : DataFrame) (column : string)
    (f : Z → gmap string value → value) :
  index (df_assign df column f) = index df.
Proof.
  unfold index, df_assign. cbn [rows]. rewrite <- list_fmap_compose.
  by apply list_fmap_ext.
Qed.

(** X7.  Every table built from a workbook has distinct row labels:
    [pd.concat] with [ignore_index=True] numbers the rows, and the column
    assignments after it keep the index. *)
Lemma combine_sheets_index_NoDup (c : content) (df : DataFrame) :
  combine_sheets to_datetime c = Ok df → NoDup (index df).
Proof.
  unfold combine_sheets, coerce_dates, add_conference_id.
  destruct (ExcelFile c) as [sheets |]; [| done]. cbn [mbind result_bind].
  destruct (concat_frames _) as [combined |] eqn:Hconcat; [| done]. cbn [mbind result_bind].
  destruct (df_column combined COL_START); [| done]. cbn [mbind result_bind].
  destruct (df_column _ COL_END); [| done]. cbn [mbind result_bind].
  intros [= <-]. rewrite !index_df_assign.
  unfold concat_frames in Hconcat. destruct (_ <$> _); [done |].
  injection Hconcat as <-. apply relabel_NoDup.
Qed.

End LoaderFacts.

(** ** The set of row labels lists each added label once *)

Lemma pyset_first_free_is_free (tbl : list (option Z)) (n i j : nat) :
  PySet.first_free tbl i n = Some j → tbl !! j = Some None.
Proof.
  revert i. induction n as [| n IH]; intros i; cbn [PySet.first_free]; [done |].
  destruct (tbl !! i) as [[k |] |] eqn:Hslot; eauto.
  by intros [= <-].
Qed.

Lemma pyset_probe_is_free (fuel : nat) (tbl : list (option Z)) (mask i perturb : Z) (j : nat) :
  PySet.probe fuel tbl mask i perturb = Some j → tbl !! j = Some None.
Proof.
  revert i perturb. induction fuel as [| fuel IH]; intros i perturb; cbn [PySet.probe]; [done |].
  destruct (PySet.first_free _ _ _) as [j' |] eqn:Hfree.
  - intros [= <-]. by eapply pyset_first_free_is_free.
  - apply IH.
Qed.

(** Filling a free slot adds one key to the listing. *)
Lemma pyset_fill_free_slot (tbl : list (option Z)) (j : nat) (k : Z) :
  tbl !! j = Some None →
  omap id (<[j := Some k]> tbl) ≡ₚ k :: omap id tbl.
Proof.
  revert j. induction tbl as [| slot tbl IH]; intros [| j] Hfree; simplify_eq/=.
  - done.
  - destruct slot as [k' |]; cbn.
    + rewrite (IH j Hfree). apply Permutation_swap.
    + by apply IH.
Qed.

Lemma pyset_insert_clean_perm (k : Z) (tbl : list (option Z)) :
  omap id (PySet.insert_clean k tbl) ≡ₚ k :: omap id tbl.
Proof.
  unfold PySet.insert_clean.
  destruct (PySet.probe _ _ _ _ _) as [j |] eqn:Hprobe.
  - apply pyset_fill_free_slot. by eapply pyset_probe_is_free.
  - rewrite omap_app. cbn. by rewrite Permutation_app_comm.
Qed.

Lemma pyset_reinsert_perm (keys : list Z) (tbl : list (option Z)) :
  omap id (foldl (λ acc k, PySet.insert_clean k acc) tbl keys) ≡ₚ keys ++ omap id tbl.
Proof.
  revert tbl. induction keys as [| k keys IH]; intros tbl; cbn [foldl]; [done |].
  rewrite IH, pyset_insert_clean_perm. symmetry. apply Permutation_middle.
Qed.

Lemma pyset_omap_replicate_None (n : nat) :
  omap id (replicate n (@None Z)) = [].
Proof. induction n as [| n IH]; [done | exact IH]. Qed.

Lemma pyset_resize_perm (tbl : list (option Z)) (minused : nat) :
  omap id (PySet.resize tbl minused) ≡ₚ omap id tbl.
Proof.
  unfold PySet.resize.
  by rewrite pyset_reinsert_perm, pyset_omap_replicate_None, app_nil_r.
Qed.

Lemma pyset_to_list_empty : PySet.to_list PySet.empty = [].
Proof. reflexivity. Qed.

(** [s.add(k)] leaves a set that holds [k] as it is, and adds [k] to one
    that does not. *)
Lemma pyset_to_list_add (k : Z) (s : PySet.t) :
  PySet.to_list (PySet.add k s) ≡ₚ
  if PySet.contains k s then PySet.to_list s else k :: PySet.to_list s.
Proof.
  unfold PySet.add. destruct (PySet.contains k s); [done |].
  case_bool_decide; unfold PySet.to_list; cbn [PySet.table].
  - apply pyset_insert_clean_perm.
  - by rewrite pyset_resize_perm, pyset_insert_clean_perm.
Qed.

Lemma pyset_elem_of_add (x k : Z) (s : PySet.t) :
  x ∈ PySet.to_list (PySet.add k s) ↔ x = k ∨ x ∈ PySet.to_list s.
Proof.
  rewrite pyset_to_list_add. unfold PySet.contains.
  case_bool_decide as Hin; [| by rewrite elem_of_cons].
  split; [by right | by intros [-> |]].
Qed.

Lemma pyset_NoDup_add (k : Z) (s : PySet.t) :
  NoDup (PySet.to_list s) → NoDup (PySet.to_list (PySet.add k s)).
Proof.
  intros Hnodup. rewrite pyset_to_list_add. unfold PySet.contains.
  case_bool_decide as Hin; [done |]. by apply NoDup_cons_2.
Qed.

(** ** Fuzzy search *)

Section SearchFacts.

Variable partial_ratio : string → string → Z.

Lemma scan_values_spec (q : string) (t : Z) (valid_data : list (Z * value))
    (m : PySet.t) (x : Z) :
  x ∈ PySet.to_list (scan_values partial_ratio q t valid_data m) ↔
  x ∈ PySet.to_list m ∨
  ∃ v, (x, v) ∈ valid_data ∧ t ≤ partial_ratio (lower q) (lower (py_str v)).
Proof.
  revert m. induction valid_data as [| [i v] vd IH]; intros m.
  - cbn. split; [by left |]. intros [Hin | (v & Hin & _)]; [done |].
    by apply elem_of_nil in Hin.
  - unfold scan_values in *. cbn [foldl]. rewrite IH. cbn [fst snd].
    setoid_rewrite elem_of_cons. case_bool_decide as Hscore.
    + rewrite pyset_elem_of_add. split.
      * intros [[-> | Hin] | (w & Hin & Hw)]; [right; exists v | by left | right; exists w]; eauto.
      * intros [Hin | (w & [[= -> ->] | Hin] & Hw)];
          [by left; right | by left; left | right; exists w; eauto].
    + split.
      * intros [Hin | (w & Hin & Hw)]; [by left | right; exists w; eauto].
      * intros [Hin | (w & [[= -> ->] | Hin] & Hw)];
          [by left | done | right; exists w; eauto].
Qed.

Lemma scan_values_NoDup (q : string) (t : Z) (valid_data : list (Z * value)) (m : PySet.t) :
  NoDup (PySet.to_list m) →
  NoDup (PySet.to_list (scan_values partial_ratio q t valid_data m)).
Proof.
  revert m. induction valid_data as [| [i v] vd IH]; intros m Hnodup; [done |].
  unfold scan_values in *. cbn [foldl]. apply IH.
  case_bool_decide; [by apply pyset_NoDup_add | done].
Qed.

Lemma elem_of_dropna_column (df : DataFrame) (column : string) (x : Z) (v : value) :
  (x, v) ∈ dropna ((λ ir, (ir.1, cell ir.2 column)) <$> rows df) ↔
  isna v = false ∧ ∃ r, (x, r) ∈ rows df ∧ v = cell r column.
Proof.
  unfold dropna. rewrite list_elem_of_filter, list_elem_of_fmap. cbn [snd].
  split.
  - intros [Hna [[i r] [[= -> ->] Hin]]]. eauto.
  - intros [Hna (r & Hin & ->)]. split; [done |]. by exists (x, r).
Qed.

Lemma scan_columns_spec (q : string) (df : DataFrame) (t : Z) (cols : list string)
    (m : PySet.t) :
  match missing_column df cols with
  | Some c => scan_columns partial_ratio q df t cols m = Raise (KeyError c)
  | None =>
      ∃ m', scan_columns partial_ratio q df t cols m = Ok m' ∧
            (NoDup (PySet.to_list m) → NoDup (PySet.to_list m')) ∧
            ∀ x, x ∈ PySet.to_list m' ↔
                 x ∈ PySet.to_list m ∨ matches_label partial_ratio q df cols t x
  end.
Proof.
  unfold missing_column. revert m. induction cols as [| column rest IH]; intros m.
  - cbn. exists m. split_and!; [done | done |]. intros x. split; [by left |].
    intros [Hin | (c & r & Hc & _)]; [done |]. by apply elem_of_nil in Hc.
  - cbn [scan_columns]. unfold df_column. destruct (decide (column ∈ columns df)) as [Hcol | Hcol].
    + rewrite filter_cons_False by (intros Hnot; by apply Hnot).
      cbn [mbind result_bind].
      set (valid := dropna _).
      assert (Hsame :
        (if bool_decide (length valid = 0%nat)
         then scan_columns partial_ratio q df t rest m
         else scan_columns partial_ratio q df t rest
                (scan_values partial_ratio q t valid m))
        = scan_columns partial_ratio q df t rest (scan_values partial_ratio q t valid m)).
      { case_bool_decide as Hlen; [| done]. by destruct valid. }
      rewrite Hsame. clear Hsame.
      specialize (IH (scan_values partial_ratio q t valid m)).
      destruct (head (filter _ rest)) as [c |]; [done |].
      destruct IH as (m' & Hrun & Hnodup & Hmem). exists m'. split_and!; [done | |].
      * intros Hm. by apply Hnodup, scan_values_NoDup.
      * intros x. rewrite Hmem, scan_values_spec. subst valid.
        setoid_rewrite elem_of_dropna_column. unfold matches_label.
        setoid_rewrite elem_of_cons. split.
        -- intros [[Hin | (v & (Hna & r & Hr & ->) & Hscore)] | (c & r & Hc & Hrest)].
           ++ by left.
           ++ right. exists column, r. eauto.
           ++ right. exists c, r. eauto.
        -- intros [Hin | (c & r & [-> | Hc] & Hr & Hna & Hscore)].
           ++ by left; left.
           ++ left; right. exists (cell r column). eauto.
           ++ right. exists c, r. eauto.
    + rewrite filter_cons_True by done. reflexivity.
Qed.

Lemma fuzzy_search_spec (q : string) (df : DataFrame) (cols : list string) (t : Z) :
  q ≠ "" →
  match missing_column df cols with
  | Some c => fuzzy_search partial_ratio q df cols t = Raise (KeyError c)
  | None =>
      ∃ res, fuzzy_search partial_ratio q df cols t = Ok res ∧ NoDup res ∧
             ∀ x, x ∈ res ↔ matches_label partial_ratio q df cols t x
  end.
Proof.
  intros Hq. unfold fuzzy_search. rewrite bool_decide_eq_false_2 by done.
  pose proof (scan_columns_spec q df t cols PySet.empty) as Hscan.
  destruct (missing_column df cols) as [c |].
  - by rewrite Hscan.
  - destruct Hscan as (m' & -> & Hnodup & Hmem). exists (PySet.to_list m').
    split_and!; [done | apply Hnodup; constructor |].
    intros x. rewrite Hmem, pyset_to_list_empty. split; [| by right].
    intros [Hin | Hm]; [by apply elem_of_nil in Hin | done].
Qed.

Lemma matches_label_in_index (q : string) (df : DataFrame) (cols : list string) (t x : Z) :
  matches_label partial_ratio q df cols t x → x ∈ index df.
Proof.
  intros (c & r & _ & Hr & _). unfold index.
  apply list_elem_of_fmap. by exists (x, r).
Qed.

Lemma matches_label_mono (q : string) (df : DataFrame) (cols : list string) (t1 t2 x : Z) :
  t2 ≤ t1 → matches_label partial_ratio q df cols t1 x → matches_label partial_ratio q df cols t2 x.
Proof.
  intros Hle (c & r & Hc & Hr & Hna & Hscore). exists c, r. split_and!; [done .. | lia].
Qed.

Lemma row_label_in_index (df : DataFrame) (x : Z) (r : gmap string value) :
  (x, r) ∈ rows df → x ∈ index df.
Proof. intros Hin. unfold index. apply list_elem_of_fmap. by exists (x, r). Qed.

(** C6.  With the empty search term, [fuzzy_search] returns the labels of
    all the rows of the table, whatever the columns and the threshold. *)
Theorem fuzzy_search_empty_query (df : DataFrame) (cols : list string) (t : Z) :
  fuzzy_search partial_ratio "" df cols t = Ok (index df) ∧
  ∀ x r, (x, r) ∈ rows df → x ∈ index df.
Proof.
  split; [reflexivity |]. intros x r. apply row_label_in_index.
Qed.

(** C7.  A higher threshold finds no more: for thresholds [t2 ≤ t1], every
    label found at [t1] is found at [t2]; and when a searched column is
    missing, the search raises the same [KeyError] at both.  It holds for
    the empty search term as well. *)
Theorem fuzzy_search_threshold_monotone (q : string) (df : DataFrame)
    (cols : list string) (t1 t2 : Z) :
  t2 ≤ t1 →
  match fuzzy_search partial_ratio q df cols t1,
        fuzzy_search partial_ratio q df cols t2 with
  | Ok found1, Ok found2 => found1 ⊆ found2
  | Raise e1, Raise e2 => e1 = e2
  | _, _ => False
  end.
Proof.
  intros Hle. destruct (decide (q = "")) as [-> | Hq].
  { cbn. by intros x. }
  pose proof (fuzzy_search_spec q df cols t1 Hq) as H1.
  pose proof (fuzzy_search_spec q df cols t2 Hq) as H2.
  destruct (missing_column df cols) as [c |].
  - by rewrite H1, H2.
  - destruct H1 as (res1 & -> & _ & Hmem1). destruct H2 as (res2 & -> & _ & Hmem2).
    intros x. rewrite Hmem1, Hmem2. by apply matches_label_mono.
Qed.

End SearchFacts.

Section NullRows.

Variable partial_ratio : string → string → Z.

Lemma label_determines_row (rs : list (Z * gmap string value)) (x : Z)
    (r r' : gmap string value) :
  NoDup rs.*1 → (x, r) ∈ rs → (x, r') ∈ rs → r = r'.
Proof.
  induction rs as [| [i a] rs IH]; intros Hnodup Hr Hr'.
  - by apply elem_of_nil in Hr.
  - cbn in Hnodup. apply NoDup_cons in Hnodup as [Hfresh Hnodup].
    assert (Hlabel : ∀ b, (i, b) ∈ rs → False).
    { intros b Hb. apply Hfresh, list_elem_of_fmap. by exists (i, b). }
    apply elem_of_cons in Hr as [[= -> ->] | Hr];
      apply elem_of_cons in Hr' as [[= <-] | Hr'].
    + done.
    + by destruct (Hlabel r').
    + subst. by destruct (Hlabel r).
    + by apply IH.
Qed.

Lemma missing_column_spec (df : DataFrame) (cols : list string) (c : string) :
  missing_column df cols = Some c → c ∈ cols ∧ c ∉ columns df.
Proof.
  intros Hhead. apply head_Some_elem_of, list_elem_of_filter in Hhead.
  by destruct Hhead.
Qed.

(** C10.  In a table whose row labels are distinct, a row that is null in
    every searched column is not found by any search term that is not
    empty, at any threshold (0 included), while the empty search term
    returns its label; so such a search does not return the full table.
    (When a searched column does not exist at all, the search raises.) *)
Theorem fuzzy_search_skips_null_rows (q : string) (df : DataFrame) (cols : list string)
    (t x : Z) (r : gmap string value) :
  q ≠ "" →
  NoDup (index df) →
  (x, r) ∈ rows df →
  (∀ c, c ∈ cols → isna (cell r c) = true) →
  fuzzy_search partial_ratio "" df cols t = Ok (index df) ∧
  x ∈ index df ∧
  match fuzzy_search partial_ratio q df cols t with
  | Ok found => (x ∉ found) ∧ ¬ (index df ⊆ found)
  | Raise e => ∃ c, e = KeyError c ∧ c ∈ cols ∧ c ∉ columns df
  end.
Proof.
  intros Hq Hnodup Hrow Hnull.
  pose proof (row_label_in_index df x r Hrow) as Hin.
  split_and!; [done | done |].
  pose proof (fuzzy_search_spec partial_ratio q df cols t Hq) as Hspec.
  destruct (missing_column df cols) as [c |] eqn:Hmissing.
  - rewrite Hspec. exists c. by destruct (missing_column_spec _ _ _ Hmissing).
  - destruct Hspec as (found & -> & _ & Hmem).
    assert (Hnot : x ∉ found).
    { rewrite Hmem. intros (c & r' & Hc & Hr' & Hna & _).
      rewrite (label_determines_row _ _ _ _ Hnodup Hr' Hrow), (Hnull c Hc) in Hna.
      discriminate. }
    split; [done |]. intros Hfull. by apply Hnot, Hfull.
Qed.

End NullRows.

(** ** The filter pipeline *)

Section PipelineFacts.

Variable partial_ratio : string → string → Z.

(** Selecting by a list of distinct labels: the rows whose label is in the
    list, grouped by label in the order of the list. *)
Lemma filter_label_split (rs : list (Z * gmap string value)) (l : Z) (labels : list Z) :
  l ∉ labels →
  filter (λ ir, ir.1 ∈ l :: labels) rs ≡ₚ
  filter (λ ir, ir.1 = l) rs ++ filter (λ ir, ir.1 ∈ labels) rs.
Proof.
  intros Hfresh. induction rs as [| [i r] rs IH]; [done |].
  rewrite !filter_cons. cbn [fst].
  destruct (decide (i = l)) as [-> | Hne].
  - rewrite decide_True by (by left). rewrite decide_False by done.
    cbn. by rewrite IH.
  - destruct (decide (i ∈ labels)) as [Hin | Hnotin].
    + rewrite decide_True by (by right). rewrite IH. apply Permutation_middle.
    + rewrite decide_False; [done |]. by intros [? | ?]%elem_of_cons.
Qed.

Lemma loc_rows_spec (rs : list (Z * gmap string value)) (labels : list Z) :
  NoDup labels → (∀ l, l ∈ labels → l ∈ rs.*1) →
  ∃ selected, loc_rows rs labels = Ok selected ∧
              selected ≡ₚ filter (λ ir, ir.1 ∈ labels) rs.
Proof.
  induction labels as [| l labels IH]; intros Hnodup Hknown.
  - exists []. split; [done |].
    clear. induction rs as [| ir rs IH]; [done |].
    rewrite filter_cons, decide_False; [done |]. apply not_elem_of_nil.
  - apply NoDup_cons in Hnodup as [Hfresh Hnodup].
    destruct IH as (tail & Htail & Hperm); [done | |].
    { intros l' Hl'. apply Hknown. by right. }
    assert (Hfound : filter (λ ir, ir.1 = l) rs ≠ []).
    { assert (Hl : l ∈ rs.*1) by (apply Hknown; by left).
      apply list_elem_of_fmap in Hl as [[i r] [Heq Hin]].
      cbn in Heq. subst i. intros Hnil.
      assert (Hmem : (l, r) ∈ filter (λ ir : Z * gmap string value, ir.1 = l) rs)
        by (by apply list_elem_of_filter).
      rewrite Hnil in Hmem. by apply elem_of_nil in Hmem. }
    cbn [loc_rows]. rewrite Htail.
    destruct (filter (λ ir, ir.1 = l) rs) as [| first more] eqn:Hsel; [done |].
    eexists. split; [reflexivity |].
    rewrite filter_label_split by done. rewrite Hsel. by rewrite Hperm.
Qed.

Lemma filter_all {A : Type} (P : A → Prop) `{∀ x, Decision (P x)} (l : list A) :
  (∀ x, P x) → filter P l = l.
Proof.
  intros Hall. induction l as [| x l IH]; [done |].
  rewrite filter_cons, decide_True by done. by rewrite IH.
Qed.

(** One exact filter of the pipeline: skipped for ["All"], a boolean mask
    on one column otherwise; either way the rows that stay keep their
    order. *)
Lemma selects_where_eq (df fd : DataFrame) (P : Z * gmap string value → Prop)
    `{∀ ir, Decision (P ir)} (in_order : Prop) (column selected : string) :
  selects df fd P in_order →
  match (if bool_decide (selected = "All") then Ok fd
         else df_where_eq fd column selected) with
  | Ok fd' =>
      selects df fd'
        (λ ir, P ir ∧ (selected = "All" ∨ cell ir.2 column = Str selected)) in_order ∧
      rows fd' = filter (λ ir, selected = "All" ∨ cell ir.2 column = Str selected) (rows fd)
  | Raise e => e = KeyError column ∧ column ∉ columns df
  end.
Proof.
  intros (Hcols & Hperm & Horder). case_bool_decide as Hall.
  - assert (Hsame : filter (λ ir, P ir ∧ (selected = "All" ∨ cell ir.2 column = Str selected))
                      (rows df) = filter P (rows df)).
    { apply list_filter_iff. intros ir. split; [by intros [? _] | by intros ?; split; [| left]]. }
    unfold selects. rewrite Hsame. split; [done |].
    by rewrite filter_all by (intros; by left).
  - unfold df_where_eq. rewrite Hcols.
    destruct (decide (column ∈ columns df)) as [Hcol | Hcol]; [| done].
    assert (Hsame : filter (λ ir, P ir ∧ (selected = "All" ∨ cell ir.2 column = Str selected))
                      (rows df)
                    = filter (λ ir, cell ir.2 column = Str selected) (filter P (rows df))).
    { rewrite list_filter_filter. apply list_filter_iff. intros ir.
      split; [by intros [? [? | ?]] | by intros [? ?]; split; [| right]]. }
    unfold selects. cbn [columns rows]. rewrite Hsame. split_and!; [done | | |].
    + by rewrite Hperm.
    + intros Hin. by rewrite (Horder Hin).
    + apply list_filter_iff. intros ir. split; [by right | by intros [? | ?]].
Qed.

(** The first step of the pipeline: the whole table for the empty search
    text, the rows at the found labels otherwise. *)
Lemma selects_search (df : DataFrame) (q : string) (t : Z) :
  match (if bool_decide (q = "") then Ok df
         else fuzzy_search partial_ratio q df [COL_EVENT; COL_LOCATION] t
              ≫= df_loc df) with
  | Ok fd =>
      ∃ found,
        (q ≠ "" → fuzzy_search partial_ratio q df [COL_EVENT; COL_LOCATION] t = Ok found) ∧
        selects df fd (λ ir, q = "" ∨ ir.1 ∈ found) (q = "")
  | Raise e => ∃ c, e = KeyError c ∧ c ∈ [COL_EVENT; COL_LOCATION] ∧ c ∉ columns df
  end.
Proof.
  case_bool_decide as Hq.
  - exists []. split; [done |]. unfold selects.
    rewrite filter_all by (intros; by left). done.
  - pose proof (fuzzy_search_spec partial_ratio q df [COL_EVENT; COL_LOCATION] t Hq) as Hspec.
    destruct (missing_column df _) as [c |] eqn:Hmissing.
    + rewrite Hspec. cbn. exists c. by destruct (missing_column_spec _ _ _ Hmissing).
    + destruct Hspec as (found & -> & Hnodup & Hmem). cbn [mbind result_bind].
      destruct (loc_rows_spec (rows df) found Hnodup) as (selected & Hloc & Hperm).
      { intros l Hl. eapply matches_label_in_index. by apply Hmem. }
      unfold df_loc. rewrite Hloc. cbn [mbind result_bind].
      exists found. split; [done |]. unfold selects. cbn [columns rows].
      split_and!; [done | | done].
      rewrite Hperm. erewrite list_filter_iff; [done |].
      intros ir. split; [by right | by intros [? | ?]].
Qed.

(** C2, as the code has it.  When the pipeline returns, the rows it
    returns are a rearrangement of a subsequence of the table: of the rows
    that pass the three steps (label found by the search unless the search
    text is empty, country and year equal to the selected ones unless
    ["All"]).  With the empty search text they come in the order of the
    table.  With another search text they come in the order in which
    [df.loc] takes them from [list(matching_indices)]; the country and year
    filters keep that order.  Otherwise the pipeline raises [KeyError] for
    a column that the table does not have. *)
Theorem filter_pipeline_rows (df : DataFrame) (q : string) (t : Z) (country year : string) :
  match filter_pipeline partial_ratio df q t country year with
  | Ok out =>
      columns out = columns df ∧
      (∃ sub,
         sub `sublist_of` rows df ∧ rows out ≡ₚ sub ∧
         ∀ ir, ir ∈ sub ↔
               ir ∈ rows df ∧
               (q = "" ∨ matches_label partial_ratio q df [COL_EVENT; COL_LOCATION] t ir.1) ∧
               (country = "All" ∨ cell ir.2 COL_COUNTRY = Str country) ∧
               (year = "All" ∨ cell ir.2 COL_YEAR = Str year)) ∧
      (q = "" → rows out `sublist_of` rows df) ∧
      (∃ first,
         (if bool_decide (q = "") then Ok df
          else found ← fuzzy_search partial_ratio q df [COL_EVENT; COL_LOCATION] t;
               df_loc df found) = Ok first ∧
         rows out =
           filter (λ ir, (year = "All" ∨ cell ir.2 COL_YEAR = Str year) ∧
                         (country = "All" ∨ cell ir.2 COL_COUNTRY = Str country))
                  (rows first))
  | Raise e =>
      ∃ c, e = KeyError c ∧ (c ∉ columns df) ∧
           c ∈ [COL_EVENT; COL_LOCATION; COL_COUNTRY; COL_YEAR]
  end.
Proof.
  unfold filter_pipeline.
  pose proof (selects_search df q t) as Hstep1.
  change (fuzzy_search partial_ratio q df [COL_EVENT; COL_LOCATION] t ≫= df_loc df)
    with (matching_indices ← fuzzy_search partial_ratio q df [COL_EVENT; COL_LOCATION] t;
          df_loc df matching_indices) in Hstep1.
  destruct (if bool_decide (q = "") then _ else _) as [fd1 | e1].
  2: { destruct Hstep1 as (c & -> & Hc & Hmissing). cbn. exists c.
       split_and!; [done | done |].
       apply elem_of_cons in Hc as [-> | Hc]; [by left |].
       apply elem_of_cons in Hc as [-> | Hc]; [by right; left |].
       by apply elem_of_nil in Hc. }
  destruct Hstep1 as (found & Hfound & Hsel1). cbn [mbind result_bind].
  pose proof (selects_where_eq df fd1 _ _ COL_COUNTRY country Hsel1) as Hstep2.
  destruct (if bool_decide (country = "All") then _ else _) as [fd2 | e2].
  2: { destruct Hstep2 as [-> Hmissing]. cbn. exists COL_COUNTRY.
       split_and!; [done | done |]. by do 2 right; left. }
  destruct Hstep2 as [Hsel2 Hrows2]. cbn [mbind result_bind].
  pose proof (selects_where_eq df fd2 _ _ COL_YEAR year Hsel2) as Hstep3.
  destruct (if bool_decide (year = "All") then _ else _) as [out | e3].
  2: { destruct Hstep3 as [-> Hmissing]. exists COL_YEAR.
       split_and!; [done | done |]. by do 3 right; left. }
  destruct Hstep3 as [(Hcols & Hperm & Horder) Hrows3].
  split_and!; [done | | |].
  - match type of Hperm with _ ≡ₚ ?sub => exists sub end.
    split_and!; [apply sublist_filter | exact Hperm |].
    intros ir. rewrite list_elem_of_filter.
    assert (Hlabel : (q = "" ∨ ir.1 ∈ found) ↔
                     (q = "" ∨ matches_label partial_ratio q df [COL_EVENT; COL_LOCATION] t ir.1)).
    { destruct (decide (q = "")) as [Hq | Hq]; [by split; left |].
      pose proof (fuzzy_search_spec partial_ratio q df [COL_EVENT; COL_LOCATION] t Hq) as Hspec.
      rewrite (Hfound Hq) in Hspec.
      destruct (missing_column df _); [done |].
      destruct Hspec as (found' & [= <-] & _ & Hmem). by rewrite Hmem. }
    rewrite <- Hlabel. tauto.
  - intros Hq. rewrite (Horder Hq). apply sublist_filter.
  - exists fd1. split; [done |]. by rewrite Hrows3, Hrows2, list_filter_filter.
Qed.

End PipelineFacts.

(** The result of a search depends on the scorer only through the scores
    of the cells it looks at. *)
Lemma scan_values_ext (pr1 pr2 : string → string → Z) (q : string) (t : Z)
    (valid_data : list (Z * value)) (m : PySet.t) :
  (∀ iv, iv ∈ valid_data →
         pr1 (lower q) (lower (py_str iv.2)) = pr2 (lower q) (lower (py_str iv.2))) →
  scan_values pr1 q t valid_data m = scan_values pr2 q t valid_data m.
Proof.
  revert m. induction valid_data as [| iv vd IH]; intros m Hsame; [done |].
  unfold scan_values in *. cbn [foldl].
  rewrite (Hsame iv) by (by left). apply IH. intros iv' Hin. apply Hsame. by right.
Qed.

Lemma scan_columns_ext (pr1 pr2 : string → string → Z) (q : string) (df : DataFrame)
    (t : Z) (cols : list string) (m : PySet.t) :
  (∀ c ir, c ∈ cols → ir ∈ rows df →
           pr1 (lower q) (lower (py_str (cell ir.2 c)))
           = pr2 (lower q) (lower (py_str (cell ir.2 c)))) →
  scan_columns pr1 q df t cols m = scan_columns pr2 q df t cols m.
Proof.
  revert m. induction cols as [| c cols IH]; intros m Hsame; [done |].
  cbn [scan_columns]. destruct (df_column df c) as [series |] eqn:Hcol; [| done].
  cbn [mbind result_bind].
  assert (Hvalues : scan_values pr1 q t (dropna series) m
                    = scan_values pr2 q t (dropna series) m).
  { apply scan_values_ext. intros [x v] Hin. cbn [snd].
    unfold df_column in Hcol. destruct (decide _); [| done]. injection Hcol as <-.
    apply elem_of_dropna_column in Hin as (_ & r & Hr & ->).
    by apply (Hsame c (x, r)); [left |]. }
  rewrite Hvalues.
  rewrite !IH; [done | |]; intros c' ir Hc' Hir; apply Hsame; [by right | done | by right | done].
Qed.

Lemma filter_pipeline_ext (pr1 pr2 : string → string → Z) (df : DataFrame) (q : string)
    (t : Z) (country year : string) :
  (∀ c ir, c ∈ [COL_EVENT; COL_LOCATION] → ir ∈ rows df →
           pr1 (lower q) (lower (py_str (cell ir.2 c)))
           = pr2 (lower q) (lower (py_str (cell ir.2 c)))) →
  filter_pipeline pr1 df q t country year = filter_pipeline pr2 df q t country year.
Proof.
  intros Hsame. unfold filter_pipeline, fuzzy_search.
  by rewrite (scan_columns_ext pr1 pr2 q df t _ _ Hsame).
Qed.

Lemma nine_conferences_index : index nine_conferences = [0; 1; 2; 3; 4; 5; 6; 7; 8].
Proof. reflexivity. Qed.

(** The search for ["acm"] in the nine conferences, where rows 1 and 8
    match: label 1 goes to slot 1 of the set's table and label 8 to slot 0,
    so [list(matching_indices)] is [[8, 1]] and row 8 comes out first. *)
Lemma nine_conferences_search_acm :
  ∃ out, filter_pipeline exact_or_nothing nine_conferences "acm" 80 "All" "All" = Ok out ∧
         index out = [8; 1].
Proof. eexists. split; [vm_compute; reflexivity | reflexivity]. Qed.

(** Against C2: the rows returned there are not a subsequence of
    the table. *)
Lemma filter_pipeline_reorders_rows :
  ∃ out, filter_pipeline exact_or_nothing nine_conferences "acm" 80 "All" "All" = Ok out ∧
         ¬ (rows out `sublist_of` rows nine_conferences).
Proof.
  destruct nine_conferences_search_acm as (out & Hrun & Hindex).
  exists out. split; [done |]. intros Hsub.
  apply (fmap_sublist fst) in Hsub. fold (index out) in Hsub.
  fold (index nine_conferences) in Hsub.
  rewrite Hindex, nine_conferences_index in Hsub.
  repeat match goal with
         | H : _ `sublist_of` _ |- _ => inversion H; clear H; subst
         end.
Qed.

(** The same rows come out for every scorer that gives 100 to ["acm"]
    against itself and 0 against ["ieee"] and ["oslo"], as
    [fuzz.partial_ratio] does. *)
Lemma nine_conferences_search_acm_any_scorer (partial_ratio : string → string → Z) :
  partial_ratio "acm" "acm" = 100 →
  partial_ratio "acm" "ieee" = 0 →
  partial_ratio "acm" "oslo" = 0 →
  filter_pipeline partial_ratio nine_conferences "acm" 80 "All" "All"
  = filter_pipeline exact_or_nothing nine_conferences "acm" 80 "All" "All".
Proof.
  intros Hacm Hieee Hoslo. apply filter_pipeline_ext. intros c ir Hc Hir.
  apply elem_of_cons in Hc as [-> | Hc]; [| apply elem_of_cons in Hc as [-> | Hc]];
    [| | by apply elem_of_nil in Hc];
    repeat (apply elem_of_cons in Hir as [-> | Hir]; [by vm_compute |]);
    by apply elem_of_nil in Hir.
Qed.

(** ** Reconciling the pin check boxes *)

Lemma loc_rows_elem_of (rs : list (Z * gmap string value)) (labels : list Z)
    (selected : list (Z * gmap string value)) :
  loc_rows rs labels = Ok selected → ∀ ir, ir ∈ selected → ir ∈ rs.
Proof.
  revert selected. induction labels as [| l labels IH]; intros selected; cbn [loc_rows].
  - intros [= <-] ir Hin. by apply elem_of_nil in Hin.
  - destruct (filter (λ ir, ir.1 = l) rs) as [| first more] eqn:Hsel; [done |].
    destruct (loc_rows rs labels) as [tail |]; [| done]. cbn.
    intros [= <-] ir Hin.
    change (first :: more ++ tail) with ((first :: more) ++ tail) in Hin.
    apply elem_of_app in Hin as [Hin | Hin]; [| by eapply IH].
    rewrite <- Hsel in Hin. by apply list_elem_of_filter in Hin as [_ ?].
Qed.

(** X16.  Whenever rows are visible, the pinned set after the search tab is
    shown is the set of the keys checked in the grid: every key in it is
    the key of a visible row. *)
Lemma reconcile_keeps_only_visible_keys (os : write_outcome) (filtered_df : DataFrame)
    (toggled : list Z) (pinned pinned' : gset string) (w w' : world) :
  df_empty filtered_df = false →
  reconcile os filtered_df toggled pinned w = Ok (pinned', w') →
  ∀ key, key ∈ pinned' → ∃ ir, ir ∈ rows filtered_df ∧ key = py_str (cell ir.2 COL_ID).
Proof.
  intros Hshown. unfold reconcile. rewrite Hshown.
  destruct (df_column filtered_df COL_ID) as [ids |] eqn:Hids; [| done].
  cbn [mbind result_bind].
  destruct (df_select filtered_df columns_to_display) as [grid |]; [| done].
  cbn [mbind result_bind]. unfold current_pinned. rewrite Hids. cbn [mbind result_bind].
  destruct (loc_rows _ _) as [selected |] eqn:Hloc; [| done]. cbn [mbind result_bind].
  assert (Hkeys : ∀ key,
            key ∈ (list_to_set ((λ ir, py_str (cell ir.2 COL_ID)) <$> selected) : gset string) →
            ∃ ir, ir ∈ rows filtered_df ∧ key = py_str (cell ir.2 COL_ID)).
  { intros key Hkey. apply elem_of_list_to_set, list_elem_of_fmap in Hkey as (ir & -> & Hin).
    exists ir. split; [by eapply loc_rows_elem_of | done]. }
  case_bool_decide as Hchanged; intros [= <- <-]; [done |].
  by rewrite <- Hchanged.
Qed.

(** C1, at a pinned conference that the year filter hides.  The first
    conference is pinned; with the year 2025 selected only the second one
    is visible; the user clicks nothing.  Showing the search tab empties
    the pinned set and writes the empty set to the file: the pin of the
    conference that is not visible is lost. *)
Theorem reconcile_drops_hidden_pin :
  ∃ visible w',
    filter_pipeline exact_or_nothing two_conferences "" 80 "All" "2025" = Ok visible ∧
    index visible = [1] ∧
    (λ ir, py_str (cell ir.2 COL_ID)) <$> rows two_conferences = [key_euroconf; key_euroconf2] ∧
    reconcile WriteOk visible [] {[key_euroconf]} (mkWorld ∅ []) = Ok (∅, w') ∧
    load_pinned_conferences w' = (∅, w').
Proof.
  do 2 eexists. split_and!.
  - vm_compute. reflexivity.
  - reflexivity.
  - vm_compute. reflexivity.
  - vm_compute. reflexivity.
  - vm_compute. reflexivity.
Qed.

(** ** The theorems at concrete inputs *)

Lemma fuzzy_search_threshold_monotone_witness :
  match fuzzy_search exact_or_nothing "acm" nine_conferences [COL_EVENT; COL_LOCATION] 100,
        fuzzy_search exact_or_nothing "acm" nine_conferences [COL_EVENT; COL_LOCATION] 60 with
  | Ok found1, Ok found2 => found1 ⊆ found2
  | Raise e1, Raise e2 => e1 = e2
  | _, _ => False
  end.
Proof.
  apply (fuzzy_search_threshold_monotone exact_or_nothing "acm" nine_conferences
           [COL_EVENT; COL_LOCATION] 100 60).
  lia.
Defined.

Lemma fuzzy_search_skips_null_rows_witness :
  fuzzy_search exact_or_nothing "" acm_and_unnamed [COL_EVENT; COL_LOCATION] 0
  = Ok (index acm_and_unnamed) ∧
  1 ∈ index acm_and_unnamed ∧
  match fuzzy_search exact_or_nothing "acm" acm_and_unnamed [COL_EVENT; COL_LOCATION] 0 with
  | Ok found => (1 ∉ found) ∧ ¬ (index acm_and_unnamed ⊆ found)
  | Raise e => ∃ c, e = KeyError c ∧ c ∈ [COL_EVENT; COL_LOCATION] ∧ c ∉ columns acm_and_unnamed
  end.
Proof.
  apply (fuzzy_search_skips_null_rows exact_or_nothing "acm" acm_and_unnamed
           [COL_EVENT; COL_LOCATION] 0 1
           (<[COL_ID := Str "nan|2024-07-01 00:00:00|nan"]> unnamed_conference)).
  - done.
  - apply (bool_decide_unpack _). vm_compute. reflexivity.
  - apply (bool_decide_unpack _). vm_compute. reflexivity.
  - intros c Hc.
    apply elem_of_cons in Hc as [-> | Hc]; [reflexivity |].
    apply elem_of_cons in Hc as [-> | Hc]; [reflexivity |].
    by apply elem_of_nil in Hc.
Defined.


Lemma load_conference_data_absent_witness :
  load_conference_data (λ v, v) (mkWorld {[PINNED_FILE := Text "[]"]} []) =
  (Ok empty_frame,
   st_error "Conference list file not found: conference_list.xlsx"
     (mkWorld {[PINNED_FILE := Text "[]"]} [])).
Proof.
  apply (load_conference_data_absent (λ v, v) (mkWorld {[PINNED_FILE := Text "[]"]} [])).
  reflexivity.
Defined.

Lemma combine_sheets_index_NoDup_witness :
  match combine_sheets (λ v, v) (Workbook [("Header", empty_frame); ("2024", sheet_2024)]) with
  | Ok df => index df = [0] ∧ NoDup (index df)
  | Raise _ => False
  end.
Proof.
  destruct (combine_sheets _ _) as [df | e] eqn:Hload.
  - split; [| exact (combine_sheets_index_NoDup (λ v, v) _ df Hload)].
    vm_compute in Hload. by injection Hload as <-.
  - vm_compute in Hload. discriminate.
Defined.

(** The rows of [two_conferences] that the year 2025 leaves visible. *)
Lemma reconcile_keeps_only_visible_keys_witness :
  ∃ ir, ir ∈ filter (λ ir, cell ir.2 COL_YEAR = Str "2025") (rows two_conferences) ∧
        key_euroconf2 = py_str (cell ir.2 COL_ID).
Proof.
  apply (reconcile_keeps_only_visible_keys WriteOk
           (mkDataFrame (columns two_conferences)
              (filter (λ ir, cell ir.2 COL_YEAR = Str "2025") (rows two_conferences)))
           [1] {[key_euroconf]} {[key_euroconf2]}
           (mkWorld ∅ [])
           (mkWorld {[PINNED_FILE := Text (json_dumps [key_euroconf2])]} [])).
  - reflexivity.
  - vm_compute. reflexivity.
  - by apply elem_of_singleton.
Defined.

(** * Further properties *)

(** ** More on the search *)

Section MoreSearch.

Variable partial_ratio : string → string → Z.

Lemma lower_empty (q : string) : lower q = "" ↔ q = "".
Proof. destruct q; [done |]. split; discriminate. Qed.

Lemma scan_columns_lower (q1 q2 : string) (df : DataFrame) (t : Z) (cols : list string)
    (m : PySet.t) :
  lower q1 = lower q2 →
  scan_columns partial_ratio q1 df t cols m = scan_columns partial_ratio q2 df t cols m.
Proof.
  intros Hlower. revert m. induction cols as [| c cols IH]; intros m; [done |].
  cbn [scan_columns]. destruct (df_column df c) as [series |]; [| done].
  cbn [mbind result_bind]. unfold scan_values. rewrite Hlower, !IH. done.
Qed.

(** X12.  The search does not tell capitals from small letters in the search
    term: two terms with the same lower-case form find the same labels, in
    the same order, and fail alike. *)
Theorem fuzzy_search_case_insensitive (q1 q2 : string) (df : DataFrame)
    (cols : list string) (t : Z) :
  lower q1 = lower q2 →
  fuzzy_search partial_ratio q1 df cols t = fuzzy_search partial_ratio q2 df cols t.
Proof.
  intros Hlower. unfold fuzzy_search.
  assert (Hempty : bool_decide (q1 = "") = bool_decide (q2 = "")).
  { apply bool_decide_ext.
    rewrite <- (lower_empty q1), <- (lower_empty q2). by rewrite Hlower. }
  rewrite Hempty. destruct (bool_decide (q2 = "")); [done |].
  by rewrite (scan_columns_lower q1 q2).
Qed.

(** X13.  A search with a term that is not empty lists every found label once,
    also when the row matches in several columns, and lists only labels of
    the table: [df.loc] never misses one of them. *)
Theorem fuzzy_search_found_once (q : string) (df : DataFrame) (cols : list string)
    (t : Z) (found : list Z) :
  q ≠ "" →
  fuzzy_search partial_ratio q df cols t = Ok found →
  NoDup found ∧ found ⊆ index df ∧
  ∃ selected, loc_rows (rows df) found = Ok selected.
Proof.
  intros Hq Hrun.
  pose proof (fuzzy_search_spec partial_ratio q df cols t Hq) as Hspec.
  destruct (missing_column df cols) as [c |]; [congruence |].
  destruct Hspec as (found' & Hrun' & Hnodup & Hmem).
  assert (found' = found) as -> by congruence.
  assert (Hsub : found ⊆ index df).
  { intros x Hx. eapply matches_label_in_index. by apply Hmem. }
  split_and!; [done | done |].
  destruct (loc_rows_spec (rows df) found Hnodup Hsub) as (selected & Hloc & _).
  by exists selected.
Qed.

(** X14.  The columns are alternatives: searching two lists of columns at once
    finds the labels that either list finds. *)
Theorem fuzzy_search_columns_union (q : string) (df : DataFrame) (cols1 cols2 : list string)
    (t : Z) (found1 found2 : list Z) :
  fuzzy_search partial_ratio q df cols1 t = Ok found1 →
  fuzzy_search partial_ratio q df cols2 t = Ok found2 →
  ∃ found, fuzzy_search partial_ratio q df (cols1 ++ cols2) t = Ok found ∧
           ∀ x, x ∈ found ↔ x ∈ found1 ∨ x ∈ found2.
Proof.
  intros Hrun1 Hrun2. destruct (decide (q = "")) as [-> | Hq].
  { cbn in *. exists (index df). split; [done |].
    injection Hrun1 as <-. injection Hrun2 as <-. tauto. }
  pose proof (fuzzy_search_spec partial_ratio q df cols1 t Hq) as Hspec1.
  pose proof (fuzzy_search_spec partial_ratio q df cols2 t Hq) as Hspec2.
  pose proof (fuzzy_search_spec partial_ratio q df (cols1 ++ cols2) t Hq) as Hspec.
  unfold missing_column in *. rewrite filter_app in Hspec.
  destruct (head (filter _ cols1)) as [c1 |] eqn:Hhead1; [congruence |].
  destruct (head (filter _ cols2)) as [c2 |] eqn:Hhead2; [congruence |].
  apply head_None in Hhead1. apply head_None in Hhead2.
  rewrite Hhead1, Hhead2 in Hspec. cbn in Hspec.
  destruct Hspec1 as (f1 & Hf1 & _ & Hmem1). destruct Hspec2 as (f2 & Hf2 & _ & Hmem2).
  assert (f1 = found1) as -> by congruence. assert (f2 = found2) as -> by congruence.
  destruct Hspec as (found & Hrun & _ & Hmem). exists found. split; [done |].
  intros x. rewrite Hmem, Hmem1, Hmem2. unfold matches_label. split.
  - intros (c & r & Hc & Hrest). apply elem_of_app in Hc as [Hc | Hc];
      [left | right]; exists c, r; by split.
  - intros [(c & r & Hc & Hrest) | (c & r & Hc & Hrest)]; exists c, r;
      (split; [apply elem_of_app; tauto | done]).
Qed.

End MoreSearch.

(** ** More on loading the conference list *)

Section MoreLoader.

Variable to_datetime : value → value.

Lemma relabel_rows (start : Z) (rs : list (Z * gmap string value)) :
  (relabel start rs).*2 = rs.*2.
Proof.
  revert start. induction rs as [| [i r] rs IH]; intros start; [done |].
  cbn. by rewrite IH.
Qed.

Lemma cell_insert_ne (r : gmap string value) (column other : string) (v : value) :
  other ≠ column → cell (<[other := v]> r) column = cell r column.
Proof. intros Hne. unfold cell. by rewrite lookup_insert_ne. Qed.

Lemma cell_insert_eq (r : gmap string value) (column : string) (v : value) :
  cell (<[column := v]> r) column = v.
Proof. unfold cell. by rewrite lookup_insert_eq. Qed.

(** Assigning one column leaves the cells of the other columns alone. *)
Lemma df_assign_other_column (df : DataFrame) (column other : string)
    (f : Z → gmap string value → value) :
  other ≠ column →
  (λ ir, cell ir.2 column) <$> rows (df_assign df other f)
  = (λ ir, cell ir.2 column) <$> rows df.
Proof.
  intros Hne. unfold df_assign. cbn [rows]. rewrite <- list_fmap_compose.
  apply list_fmap_ext. intros i [x r] _. cbn. by apply cell_insert_ne.
Qed.

(** What the loader has done when it returns a table. *)
Lemma combine_sheets_inv (c : content) (df : DataFrame) :
  combine_sheets to_datetime c = Ok df →
  ∃ sheets combined dated1 dated2,
    c = Workbook sheets ∧
    concat_frames ((λ s, df_assign s.2 COL_YEAR (λ _ _, Str s.1))
                     <$> filter (λ s, s.1 ≠ "Header") sheets) = Ok combined ∧
    coerce_dates to_datetime combined COL_START = Ok dated1 ∧
    coerce_dates to_datetime dated1 COL_END = Ok dated2 ∧
    df = add_conference_id dated2.
Proof.
  unfold combine_sheets. destruct c as [text | sheets]; [done |].
  cbn [ExcelFile mbind result_bind].
  destruct (concat_frames _) as [combined |] eqn:Hc; [| done]. cbn [mbind result_bind].
  destruct (coerce_dates _ combined _) as [dated1 |] eqn:H1; [| done]. cbn [mbind result_bind].
  destruct (coerce_dates _ dated1 _) as [dated2 |] eqn:H2; [| done]. cbn [mbind result_bind].
  intros [= <-]. by exists sheets, combined, dated1, dated2.
Qed.

Lemma coerce_dates_inv (df df' : DataFrame) (column : string) :
  coerce_dates to_datetime df column = Ok df' →
  df' = df_assign df column (λ _ r, to_datetime (cell r column)).
Proof.
  unfold coerce_dates. destruct (df_column df column); [| done]. by intros [= <-].
Qed.

Lemma concat_frames_inv (frames : list DataFrame) (combined : DataFrame) :
  concat_frames frames = Ok combined →
  frames ≠ [] ∧
  columns combined = union_columns frames ∧
  rows combined = relabel 0 (concat (rows <$> frames)).
Proof. destruct frames; [done |]. by intros [= <-]. Qed.

(** X8.  Every row of a loaded table carries as its year the name of the sheet
    it was read from; the sheets come in the order of the workbook, each
    with its rows in order, and the sheet named "Header" gives no row. *)
Theorem load_years_are_sheet_names (sheets : list (string * DataFrame)) (df : DataFrame) :
  combine_sheets to_datetime (Workbook sheets) = Ok df →
  (λ ir, cell ir.2 COL_YEAR) <$> rows df
  = concat ((λ s, replicate (length (rows s.2)) (Str s.1))
              <$> filter (λ s, s.1 ≠ "Header") sheets).
Proof.
  intros Hload.
  apply combine_sheets_inv in Hload
    as (sheets' & combined & dated1 & dated2 & [= <-] & Hconcat & H1 & H2 & ->).
  apply coerce_dates_inv in H1 as ->. apply coerce_dates_inv in H2 as ->.
  unfold add_conference_id. rewrite !df_assign_other_column by done.
  apply concat_frames_inv in Hconcat as (_ & _ & ->).
  change (λ ir : Z * gmap string value, cell ir.2 COL_YEAR)
    with ((λ r : gmap string value, cell r COL_YEAR) ∘ (snd : Z * gmap string value → _)).
  rewrite list_fmap_compose, relabel_rows.
  induction (filter _ sheets) as [| [name sheet] data IH]; [done |].
  cbn [fmap list_fmap concat]. rewrite !fmap_app, IH. f_equal.
  unfold df_assign. cbn [rows fst snd]. clear.
  induction (rows sheet) as [| [i r] rs IH]; [done |].
  cbn. rewrite cell_insert_eq. f_equal. exact IH.
Qed.

Lemma row_series_lookup (df : DataFrame) (r : gmap string value) (key : string) :
  row_series df r !! key = if decide (key ∈ columns df) then Some (cell r key) else None.
Proof.
  unfold row_series. induction (columns df) as [| c cols IH].
  - cbn. rewrite lookup_empty. by rewrite decide_False by apply not_elem_of_nil.
  - cbn [fmap list_fmap list_to_map foldr]. cbn.
    destruct (decide (key = c)) as [-> | Hne].
    + rewrite lookup_insert_eq. by rewrite decide_True by (by left).
    + rewrite lookup_insert_ne by done. rewrite IH.
      destruct (decide (key ∈ cols)) as [Hin | Hnotin].
      * by rewrite decide_True by (by right).
      * rewrite decide_False; [done |]. by intros [? | ?]%elem_of_cons.
Qed.

(** The text [create_conference_id] reads for one field of a row of a
    frame: the cell as text, and the empty text when the frame has no such
    column. *)
Lemma field_text_row_series (df : DataFrame) (r : gmap string value) (key : string) :
  field_text (row_series df r) key
  = if decide (key ∈ columns df) then py_str (cell r key) else "".
Proof.
  unfold field_text, row_get. rewrite row_series_lookup. by destruct (decide _).
Qed.

Lemma columns_df_assign_other (df : DataFrame) (column key : string)
    (f : Z → gmap string value → value) :
  key ≠ column → key ∈ columns (df_assign df column f) ↔ key ∈ columns df.
Proof.
  intros Hne. unfold df_assign. cbn [columns]. destruct (decide _); [done |].
  rewrite elem_of_app, list_elem_of_singleton. tauto.
Qed.

(** X9.  The key stored with a row is the key computed from the stored row:
    looking a conference up by recomputing its key finds the key that was
    attached when the table was loaded. *)
Theorem loaded_key_is_recomputed_key (c : content) (df : DataFrame)
    (x : Z) (r : gmap string value) :
  combine_sheets to_datetime c = Ok df →
  (x, r) ∈ rows df →
  cell r COL_ID = Str (create_conference_id (row_series df r)).
Proof.
  intros Hload Hrow.
  apply combine_sheets_inv in Hload as (_ & _ & _ & dated & _ & _ & _ & _ & ->).
  unfold add_conference_id, df_assign in Hrow. cbn [rows] in Hrow.
  apply list_elem_of_fmap in Hrow as ([x0 r0] & [= -> ->] & Hrow0). cbn [fst snd].
  rewrite cell_insert_eq. f_equal.
  rewrite !create_conference_id_format, !field_text_row_series.
  assert (Hfield : ∀ key v, key ≠ COL_ID →
            (if decide (key ∈ columns (add_conference_id dated))
             then py_str (cell (<[COL_ID := v]> r0) key) else "")
            = (if decide (key ∈ columns dated) then py_str (cell r0 key) else "")).
  { intros key v Hne. rewrite cell_insert_ne by done.
    destruct (decide (key ∈ columns dated)) as [Hin | Hnotin].
    - rewrite decide_True; [done |]. by apply columns_df_assign_other.
    - rewrite decide_False; [done |].
      unfold add_conference_id. by rewrite columns_df_assign_other. }
  by rewrite !Hfield.
Qed.

(** X10.  A workbook without a data sheet (no sheet at all, or only sheets named
    "Header") makes the load raise [ValueError]. *)
Theorem load_without_data_sheet_raises (sheets : list (string * DataFrame)) :
  Forall (λ s, s.1 = "Header") sheets →
  combine_sheets to_datetime (Workbook sheets)
  = Raise (ValueError "No objects to concatenate").
Proof.
  intros Hall. unfold combine_sheets. cbn [ExcelFile mbind result_bind].
  assert (Hnone : filter (λ s : string * DataFrame, s.1 ≠ "Header") sheets = []).
  { induction Hall as [| s sheets Hs _ IH]; [done |].
    by rewrite filter_cons_False by (intros Hne; by apply Hne). }
  by rewrite Hnone.
Qed.

Lemma elem_of_union_columns (frames : list DataFrame) (c : string) :
  c ∈ union_columns frames ↔ ∃ df, df ∈ frames ∧ c ∈ columns df.
Proof.
  unfold union_columns.
  assert (Hgen : ∀ acc,
            c ∈ foldl (λ acc df, acc ++ filter (λ c, c ∉ acc) (columns df)) acc frames
            ↔ c ∈ acc ∨ ∃ df, df ∈ frames ∧ c ∈ columns df).
  { induction frames as [| df frames IH]; intros acc; cbn [foldl].
    - split; [by left |]. intros [Hin | (df & Hdf & _)]; [done |].
      by apply elem_of_nil in Hdf.
    - rewrite IH, elem_of_app, list_elem_of_filter. split.
      + intros [[Hin | [_ Hin]] | (df' & Hdf' & Hin)].
        * by left.
        * right. exists df. split; [by left | done].
        * right. exists df'. split; [by right | done].
      + intros [Hin | (df' & Hdf' & Hin)]; [by left; left |].
        apply elem_of_cons in Hdf' as [-> | Hdf'].
        * destruct (decide (c ∈ acc)); [by left; left | by left; right].
        * right. by exists df'. }
  rewrite Hgen. split; [| by right]. intros [Hin | Hex]; [| done].
  by apply elem_of_nil in Hin.
Qed.

(** X11.  A workbook whose data sheets all lack the column "Start Date" makes
    the load raise [KeyError] for it. *)
Theorem load_without_start_date_raises (sheets : list (string * DataFrame)) :
  (∃ s, s ∈ sheets ∧ s.1 ≠ "Header") →
  (∀ s, s ∈ sheets → s.1 ≠ "Header" → COL_START ∉ columns s.2) →
  combine_sheets to_datetime (Workbook sheets) = Raise (KeyError COL_START).
Proof.
  intros (s0 & Hs0 & Hdata0) Hnone. unfold combine_sheets. cbn [ExcelFile mbind result_bind].
  destruct (concat_frames _) as [combined | e] eqn:Hconcat.
  - cbn [mbind result_bind]. unfold coerce_dates, df_column.
    apply concat_frames_inv in Hconcat as (_ & Hcols & _).
    rewrite decide_False; [done |].
    rewrite Hcols, elem_of_union_columns. intros (df & Hdf & Hin).
    apply list_elem_of_fmap in Hdf as (s & -> & Hs).
    apply list_elem_of_filter in Hs as [Hdata Hs].
    apply columns_df_assign_other in Hin; [| done]. by apply (Hnone s).
  - exfalso. unfold concat_frames in Hconcat.
    destruct (_ <$> filter _ sheets) as [| first more] eqn:Hframes; [| done].
    apply fmap_nil_inv in Hframes.
    assert (Hin : s0 ∈ filter (λ s : string * DataFrame, s.1 ≠ "Header") sheets)
      by (by apply list_elem_of_filter).
    rewrite Hframes in Hin. by apply elem_of_nil in Hin.
Qed.

End MoreLoader.

(** ** More on reconciling the pin check boxes *)

Lemma data_editor_labels (shown : list (Z * bool)) (toggled : list Z) :
  (data_editor shown toggled).*1 = shown.*1.
Proof.
  unfold data_editor. rewrite <- list_fmap_compose. by apply list_fmap_ext.
Qed.

Lemma pin_column_labels (fd : DataFrame) (pinned : gset string) :
  (pin_column fd pinned).*1 = index fd.
Proof.
  unfold pin_column, index. rewrite <- list_fmap_compose. by apply list_fmap_ext.
Qed.

Lemma elem_of_edited_grid (fd : DataFrame) (pinned : gset string) (toggled : list Z)
    (x : Z) (b : bool) :
  (x, b) ∈ data_editor (pin_column fd pinned) toggled ↔
  ∃ r, (x, r) ∈ rows fd ∧ b = box_checked pinned toggled x r.
Proof.
  unfold data_editor, pin_column, box_checked.
  rewrite <- list_fmap_compose, list_elem_of_fmap. split.
  - intros ([x' r] & [= -> ->] & Hin). by exists r.
  - intros (r & Hin & ->). by exists (x, r).
Qed.

Lemma current_pinned_spec (fd : DataFrame) (pinned : gset string) (toggled : list Z) :
  NoDup (index fd) → COL_ID ∈ columns fd →
  ∃ current,
    current_pinned fd (data_editor (pin_column fd pinned) toggled) = Ok current ∧
    ∀ key, key ∈ current ↔
           ∃ x r, (x, r) ∈ rows fd ∧ key = py_str (cell r COL_ID) ∧
                  box_checked pinned toggled x r = true.
Proof.
  intros Hnodup Hcol. unfold current_pinned, df_column.
  rewrite decide_True by done. cbn [mbind result_bind].
  set (edited := data_editor (pin_column fd pinned) toggled).
  set (labels := (filter (λ ib : Z * bool, ib.2 = true) edited).*1).
  assert (Hlabels : ∀ l, l ∈ labels ↔
            ∃ r, (l, r) ∈ rows fd ∧ box_checked pinned toggled l r = true).
  { intros l. unfold labels. rewrite list_elem_of_fmap. split.
    - intros ([l' b] & -> & [Hb Hin]%list_elem_of_filter). cbn in Hb. subst b.
      apply elem_of_edited_grid in Hin as (r & Hr & Hbox). by exists r.
    - intros (r & Hr & Hbox). exists (l, true). split; [done |].
      apply list_elem_of_filter. split; [done |].
      apply elem_of_edited_grid. by exists r. }
  assert (Hdistinct : NoDup labels).
  { unfold labels. apply (sublist_NoDup _ (index fd)); [done |].
    assert (Hidx : edited.*1 = index fd).
    { unfold edited. rewrite data_editor_labels. apply pin_column_labels. }
    rewrite <- Hidx. apply fmap_sublist, sublist_filter. }
  destruct (loc_rows_spec (rows fd) labels Hdistinct) as (selected & Hloc & Hperm).
  { intros l (r & Hr & _)%Hlabels. by eapply row_label_in_index. }
  rewrite Hloc. cbn [mbind result_bind]. eexists. split; [done |].
  intros key. rewrite elem_of_list_to_set, list_elem_of_fmap. split.
  - intros ([x r] & -> & Hin). rewrite Hperm in Hin.
    apply list_elem_of_filter in Hin as [Hlabel Hin]. cbn in Hlabel.
    apply Hlabels in Hlabel as (r' & Hr' & Hbox).
    rewrite (label_determines_row _ _ _ _ Hnodup Hr' Hin) in Hbox.
    by exists x, r.
  - intros (x & r & Hin & -> & Hbox). exists (x, r). split; [done |].
    rewrite Hperm. apply list_elem_of_filter. split; [| done].
    apply Hlabels. by exists r.
Qed.

(** What the search tab does to the pinned set, step by step, when rows
    with distinct labels are visible and the grid's columns exist. *)
Lemma reconcile_run (os : write_outcome) (fd : DataFrame) (toggled : list Z)
    (pinned : gset string) (w : world) :
  NoDup (index fd) → df_empty fd = false →
  COL_ID ∈ columns fd → Forall (λ c, c ∈ columns fd) columns_to_display →
  ∃ current,
    (∀ key, key ∈ current ↔
            ∃ x r, (x, r) ∈ rows fd ∧ key = py_str (cell r COL_ID) ∧
                   box_checked pinned toggled x r = true) ∧
    reconcile os fd toggled pinned w
    = Ok (if bool_decide (current ≠ pinned)
          then (current, (save_pinned_conferences os current w).2)
          else (pinned, w)).
Proof.
  intros Hnodup Hshown Hcol Hcols.
  destruct (current_pinned_spec fd pinned toggled Hnodup Hcol) as (current & Hrun & Hmem).
  exists current. split; [done |].
  unfold reconcile. rewrite Hshown. unfold df_column at 1.
  rewrite decide_True by done. cbn [mbind result_bind].
  assert (Hselect : filter (λ c, c ∉ columns fd) columns_to_display = []).
  { induction Hcols as [| c cols Hc _ IH]; [done |].
    rewrite filter_cons_False; [done |]. by intros Hnot. }
  unfold df_select. rewrite Hselect. cbn [mbind result_bind].
  rewrite Hrun. cbn [mbind result_bind]. by case_bool_decide.
Qed.

Lemma box_checked_true (pinned : gset string) (toggled : list Z) (x : Z)
    (r : gmap string value) :
  box_checked pinned toggled x r = true ↔
  if bool_decide (x ∈ toggled)
  then py_str (cell r COL_ID) ∉ pinned
  else py_str (cell r COL_ID) ∈ pinned.
Proof.
  unfold box_checked. destruct (bool_decide (x ∈ toggled)).
  - rewrite negb_true_iff. apply bool_decide_eq_false.
  - apply bool_decide_eq_true.
Qed.

(** A reconciliation that returns has found the columns of the grid. *)
Lemma reconcile_ok_columns (os : write_outcome) (fd : DataFrame) (toggled : list Z)
    (pinned : gset string) (w : world) (res : gset string * world) :
  df_empty fd = false →
  reconcile os fd toggled pinned w = Ok res →
  COL_ID ∈ columns fd ∧ Forall (λ c, c ∈ columns fd) columns_to_display.
Proof.
  intros Hshown. unfold reconcile. rewrite Hshown. unfold df_column at 1.
  destruct (decide (COL_ID ∈ columns fd)) as [Hcol | Hcol]; [| done].
  cbn [mbind result_bind]. unfold df_select.
  destruct (filter _ columns_to_display) as [| c missing] eqn:Hmissing; [| done].
  intros _. split; [done |]. apply Forall_forall. intros c Hc.
  destruct (decide (c ∈ columns fd)) as [Hin | Hnotin]; [done |].
  assert (Hmem : c ∈ filter (λ c, c ∉ columns fd) columns_to_display)
    by (by apply list_elem_of_filter).
  rewrite Hmissing in Hmem. by apply elem_of_nil in Hmem.
Qed.

(** X17.  After the search tab is shown with visible rows of distinct labels, a
    key is pinned exactly when it is the key of a visible row whose box is
    checked in the end: a row the user did not click is checked when its
    key was pinned before, a row the user clicked when it was not. *)
Theorem reconcile_pins_the_checked_rows (os : write_outcome) (fd : DataFrame)
    (toggled : list Z) (pinned pinned' : gset string) (w w' : world) :
  NoDup (index fd) → df_empty fd = false →
  reconcile os fd toggled pinned w = Ok (pinned', w') →
  ∀ key, key ∈ pinned' ↔
         ∃ x r, (x, r) ∈ rows fd ∧ key = py_str (cell r COL_ID) ∧
                if bool_decide (x ∈ toggled) then key ∉ pinned else key ∈ pinned.
Proof.
  intros Hnodup Hshown Hrun.
  destruct (reconcile_ok_columns _ _ _ _ _ _ Hshown Hrun) as [Hcol Hcols].
  destruct (reconcile_run os fd toggled pinned w Hnodup Hshown Hcol Hcols)
    as (current & Hmem & Hrun').
  rewrite Hrun' in Hrun. clear Hrun'.
  assert (Hsame : pinned' = current).
  { case_bool_decide as Hchanged; injection Hrun as <- <-; [done |].
    by symmetry. }
  subst pinned'. intros key. rewrite Hmem. split.
  - intros (x & r & Hin & -> & Hbox). exists x, r. split_and!; [done | done |].
    by apply box_checked_true.
  - intros (x & r & Hin & -> & Hbox). exists x, r. split_and!; [done | done |].
    by apply box_checked_true.
Qed.

(** X18.  Showing the search tab again with the same visible rows and no click
    changes nothing: the pinned set stays as it is and nothing is written,
    whatever a write would do. *)
Theorem reconcile_again_changes_nothing (os os' : write_outcome) (fd : DataFrame)
    (toggled : list Z) (pinned pinned' : gset string) (w w' : world) :
  NoDup (index fd) → df_empty fd = false →
  reconcile os fd toggled pinned w = Ok (pinned', w') →
  reconcile os' fd [] pinned' w' = Ok (pinned', w').
Proof.
  intros Hnodup Hshown Hrun.
  destruct (reconcile_ok_columns _ _ _ _ _ _ Hshown Hrun) as [Hcol Hcols].
  destruct (reconcile_run os fd toggled pinned w Hnodup Hshown Hcol Hcols)
    as (current & Hmem & Hrun').
  rewrite Hrun' in Hrun. clear Hrun'.
  assert (Hsame : pinned' = current).
  { case_bool_decide as Hchanged; injection Hrun as <- <-; [done |].
    by symmetry. }
  destruct (reconcile_run os' fd [] pinned' w' Hnodup Hshown Hcol Hcols)
    as (again & Hagain & ->).
  assert (Hfixed : again = pinned').
  { apply set_eq. intros key. rewrite Hagain. split.
    - intros (x & r & Hin & -> & Hbox). apply box_checked_true in Hbox.
      by rewrite bool_decide_eq_false_2 in Hbox by apply not_elem_of_nil.
    - intros Hkey. pose proof Hkey as Hvisible. rewrite Hsame, Hmem in Hvisible.
      destruct Hvisible as (x & r & Hin & -> & _). exists x, r.
      split_and!; [done | done |]. apply box_checked_true.
      by rewrite bool_decide_eq_false_2 by apply not_elem_of_nil. }
  rewrite Hfixed. by rewrite bool_decide_eq_false_2 by (intros Hne; by apply Hne).
Qed.

(** X19.  As long as the writes go well, the file holds the pinned set of the
    session: if a load returned the session's set before the search tab is
    shown, a load returns the session's set after it. *)
Theorem reconcile_keeps_file_in_step (fd : DataFrame) (toggled : list Z)
    (pinned pinned' : gset string) (w w' : world) :
  (load_pinned_conferences w).1 = pinned →
  reconcile WriteOk fd toggled pinned w = Ok (pinned', w') →
  (load_pinned_conferences w').1 = pinned'.
Proof.
  intros Hfile. unfold reconcile. destruct (df_empty fd); [by intros [= <- <-] |].
  destruct (df_column fd COL_ID); [| done]. cbn [mbind result_bind].
  destruct (df_select fd columns_to_display); [| done]. cbn [mbind result_bind].
  destruct (current_pinned _ _) as [current |]; [| done]. cbn [mbind result_bind].
  case_bool_decide; intros [= <- <-]; [| done].
  exact (f_equal fst (load_after_write current w)).
Qed.

(** ** More on the filter pipeline *)

Section MorePipeline.

Variable partial_ratio : string → string → Z.

Lemma filter_pipeline_rearranges (df : DataFrame) (q : string) (t : Z)
    (country year : string) (out : DataFrame) :
  filter_pipeline partial_ratio df q t country year = Ok out →
  columns out = columns df ∧
  ∃ sub, sub `sublist_of` rows df ∧ rows out ≡ₚ sub.
Proof.
  unfold filter_pipeline.
  pose proof (selects_search partial_ratio df q t) as Hstep1.
  change (fuzzy_search partial_ratio q df [COL_EVENT; COL_LOCATION] t ≫= df_loc df)
    with (matching_indices ← fuzzy_search partial_ratio q df [COL_EVENT; COL_LOCATION] t;
          df_loc df matching_indices) in Hstep1.
  destruct (if bool_decide (q = "") then _ else _) as [fd1 | e1]; [| done].
  destruct Hstep1 as (found & _ & Hsel1). cbn [mbind result_bind].
  pose proof (selects_where_eq df fd1 _ _ COL_COUNTRY country Hsel1) as Hstep2.
  destruct (if bool_decide (country = "All") then _ else _) as [fd2 | e2]; [| done].
  destruct Hstep2 as [Hsel2 _]. cbn [mbind result_bind].
  pose proof (selects_where_eq df fd2 _ _ COL_YEAR year Hsel2) as Hstep3.
  destruct (if bool_decide (year = "All") then _ else _) as [out' | e3]; [| done].
  destruct Hstep3 as [(Hcols & Hperm & _) _]. intros [= <-]. split; [done |].
  match type of Hperm with _ ≡ₚ ?sub => exists sub end.
  split; [apply sublist_filter | done].
Qed.

(** X15.  The visible rows never repeat a label when the table does not: the
    grid shows every row of the table at most once. *)
Theorem filter_pipeline_keeps_labels_distinct (df : DataFrame) (q : string) (t : Z)
    (country year : string) (out : DataFrame) :
  NoDup (index df) →
  filter_pipeline partial_ratio df q t country year = Ok out →
  NoDup (index out) ∧ index out ⊆ index df.
Proof.
  intros Hnodup Hrun.
  apply filter_pipeline_rearranges in Hrun as (_ & sub & Hsub & Hperm).
  assert (Hindex : index out ≡ₚ sub.*1) by (unfold index; by rewrite Hperm).
  assert (Hlabels : sub.*1 `sublist_of` index df) by (by apply fmap_sublist).
  split.
  - rewrite Hindex. by eapply sublist_NoDup.
  - intros x Hx. rewrite Hindex in Hx. by eapply sublist_subseteq.
Qed.

End MorePipeline.

(** ** The pinned tab *)

Lemma elem_of_discard_all (pinned : gset string) (ids : list string) (key : string) :
  key ∈ discard_all pinned ids ↔ key ∈ pinned ∧ key ∉ ids.
Proof.
  unfold discard_all. revert pinned. induction ids as [| k ids IH]; intros pinned; cbn [foldl].
  - split; [intros ?; split; [done | apply not_elem_of_nil] | by intros [? _]].
  - rewrite IH, elem_of_difference, elem_of_singleton, not_elem_of_cons. tauto.
Qed.

Lemma elem_of_string_ids (rs : list (Z * gmap string value)) (key : string) :
  key ∈ string_ids rs ↔ ∃ ir, ir ∈ rs ∧ cell ir.2 COL_ID = Str key.
Proof.
  unfold string_ids. rewrite list_elem_of_omap. split.
  - intros (ir & Hin & Hid). exists ir. split; [done |].
    destruct (cell ir.2 COL_ID); by simplify_eq.
  - intros (ir & Hin & Hid). exists ir. split; [done |]. by rewrite Hid.
Qed.

Lemma loc_rows_complete (rs : list (Z * gmap string value)) (labels : list Z)
    (selected : list (Z * gmap string value)) :
  loc_rows rs labels = Ok selected →
  ∀ ir, ir ∈ rs → ir.1 ∈ labels → ir ∈ selected.
Proof.
  revert selected. induction labels as [| l labels IH]; intros selected; cbn [loc_rows].
  - intros _ ir _ Hin. by apply elem_of_nil in Hin.
  - destruct (filter (λ ir, ir.1 = l) rs) as [| first more] eqn:Hsel; [done |].
    destruct (loc_rows rs labels) as [tail |]; [| done]. cbn.
    intros [= <-] ir Hin Hlabel.
    change (first :: more ++ tail) with ((first :: more) ++ tail).
    apply elem_of_app. apply elem_of_cons in Hlabel as [Heq | Hlabel].
    + left. rewrite <- Hsel. by apply list_elem_of_filter.
    + right. by eapply IH.
Qed.

Lemma loc_rows_labels (rs : list (Z * gmap string value)) (labels : list Z)
    (selected : list (Z * gmap string value)) :
  loc_rows rs labels = Ok selected → ∀ ir, ir ∈ selected → ir.1 ∈ labels.
Proof.
  revert selected. induction labels as [| l labels IH]; intros selected; cbn [loc_rows].
  - intros [= <-] ir Hin. by apply elem_of_nil in Hin.
  - destruct (filter (λ ir, ir.1 = l) rs) as [| first more] eqn:Hsel; [done |].
    destruct (loc_rows rs labels) as [tail |]; [| done]. cbn. intros [= <-] ir Hin.
    change (first :: more ++ tail) with ((first :: more) ++ tail) in Hin.
    apply elem_of_app in Hin as [Hin | Hin]; [| right; by eapply IH].
    rewrite <- Hsel in Hin. apply list_elem_of_filter in Hin as [-> _]. by left.
Qed.

(** The labels checked in the grid of the pinned tab: those of the pinned
    rows that the user clicked. *)
Lemma elem_of_selected_labels (rs : list (Z * gmap string value)) (toggled : list Z) (l : Z) :
  l ∈ (filter (λ ib : Z * bool, ib.2 = true)
         (data_editor ((λ ir, (ir.1, false)) <$> rs) toggled)).*1
  ↔ l ∈ rs.*1 ∧ l ∈ toggled.
Proof.
  unfold data_editor. rewrite <- list_fmap_compose, !list_elem_of_fmap. split.
  - intros ([l' b] & -> & [Hb ([x r] & [= -> ->] & Hin)%list_elem_of_fmap]%list_elem_of_filter).
    cbn in *. case_bool_decide; [| done]. split; [| done]. by exists (x, r).
  - intros [([x r] & -> & Hin) Htoggled]. exists (x, true). split; [done |].
    apply list_elem_of_filter. split; [done |]. apply list_elem_of_fmap.
    exists (x, r). split; [| done]. cbn. by rewrite bool_decide_eq_true_2.
Qed.

(** X20.  "Unpin Selected" takes out of the pinned set the keys of the rows of
    the table whose box was clicked, and nothing else: every other pin
    stays, also the pin of a conference that the table does not hold. *)
Theorem unpin_removes_the_selected_keys (os : write_outcome) (df : DataFrame)
    (toggled : list Z) (pinned pinned' : gset string) (w w' : world) :
  unpin_selected os df toggled pinned w = Ok (pinned', w') →
  ∀ key, key ∈ pinned' ↔
         key ∈ pinned ∧
         ¬ ∃ x r, (x, r) ∈ rows df ∧ x ∈ toggled ∧ cell r COL_ID = Str key.
Proof.
  unfold unpin_selected. case_bool_decide as Hnone.
  { intros [= <- <-] key. subst pinned. split; [| by intros [? _]].
    intros Hin. by apply elem_of_empty in Hin. }
  unfold pinned_rows. destruct (df_column df COL_ID); [| done]. cbn [mbind result_bind].
  destruct (df_select _ _); [| done]. cbn [mbind result_bind rows].
  set (shown := filter (λ ir, isin (cell ir.2 COL_ID) pinned = true) (rows df)).
  pose proof (elem_of_selected_labels shown toggled) as Hlabels.
  assert (Hshown : ∀ x r key, cell r COL_ID = Str key → key ∈ pinned →
                     (x, r) ∈ rows df → (x, r) ∈ shown).
  { intros x r key Hid Hkey Hin. apply list_elem_of_filter. split; [| done].
    cbn. rewrite Hid. cbn. by apply bool_decide_eq_true_2. }
  destruct ((filter _ _).*1) as [| l labels] eqn:Hsel.
  - intros [= <- <-] key. split; [| by intros [? _]]. intros Hkey. split; [done |].
    intros (x & r & Hin & Htoggled & Hid).
    assert (Hl : x ∈ @nil Z); [| by apply elem_of_nil in Hl].
    apply Hlabels. split; [| done]. apply list_elem_of_fmap. exists (x, r).
    split; [done |]. by eapply Hshown.
  - destruct (loc_rows shown (l :: labels)) as [selected |] eqn:Hloc; [| done].
    cbn [mbind result_bind]. intros [= <- <-] key.
    rewrite elem_of_discard_all, elem_of_string_ids. split.
    + intros [Hkey Hnot]. split; [done |]. intros (x & r & Hin & Htoggled & Hid).
      apply Hnot. exists (x, r). split; [| done].
      eapply loc_rows_complete; [done | by eapply Hshown |]. cbn.
      apply Hlabels. split; [| done]. apply list_elem_of_fmap. exists (x, r).
      split; [done |]. by eapply Hshown.
    + intros [Hkey Hnot]. split; [done |]. intros ([x r] & Hin & Hid). apply Hnot.
      pose proof (loc_rows_elem_of _ _ _ Hloc _ Hin) as Hrow.
      pose proof (loc_rows_labels _ _ _ Hloc _ Hin) as Hx. cbn in Hx.
      apply Hlabels in Hx as [_ Htoggled]. exists x, r.
      apply list_elem_of_filter in Hrow as [_ Hrow]. done.
Qed.

(** X21.  As long as the writes go well, the file holds the pinned set of the
    session after "Unpin Selected" too. *)
Theorem unpin_keeps_file_in_step (df : DataFrame) (toggled : list Z)
    (pinned pinned' : gset string) (w w' : world) :
  (load_pinned_conferences w).1 = pinned →
  unpin_selected WriteOk df toggled pinned w = Ok (pinned', w') →
  (load_pinned_conferences w').1 = pinned'.
Proof.
  intros Hfile. unfold unpin_selected. case_bool_decide; [by intros [= <- <-] |].
  destruct (pinned_rows df pinned) as [pinned_df |]; [| done]. cbn [mbind result_bind].
  destruct (df_select _ _); [| done]. cbn [mbind result_bind].
  destruct ((filter _ _).*1) as [| l labels]; [by intros [= <- <-] |].
  destruct (loc_rows _ _) as [selected |]; [| done]. cbn [mbind result_bind].
  intros [= <- <-]. exact (f_equal fst (load_after_write _ w)).
Qed.

(** ** Refreshing and pinning do not disturb each other *)

Lemma load_pinned_conferences_same_file (w1 w2 : world) :
  files w1 !! PINNED_FILE = files w2 !! PINNED_FILE →
  (load_pinned_conferences w1).1 = (load_pinned_conferences w2).1.
Proof.
  intros Hsame. unfold load_pinned_conferences. rewrite Hsame.
  destruct (files w2 !! PINNED_FILE) as [c |]; [| done]. by destruct (json_load c).
Qed.

(** X5.  A refresh, whatever the server answers and whatever becomes of the
    write, leaves the pinned set on disk as it is: the next session loads
    the same pins. *)
Theorem refresh_keeps_the_pins (net : get_outcome) (os : write_outcome) (w : world) :
  (load_pinned_conferences (download_latest_excel net os w).2).1
  = (load_pinned_conferences w).1.
Proof.
  apply load_pinned_conferences_same_file. unfold download_latest_excel.
  destruct net as [msg | status body]; [done |].
  destruct os as [| msg | n msg]; cbn; [| done |]; by rewrite lookup_insert_ne.
Qed.

(** X4.  A save of the pinned set, whatever becomes of the write, leaves the
    conference list on disk as it is: the table loaded next is the same. *)
Theorem save_keeps_the_conference_list (to_datetime : value → value) (os : write_outcome)
    (pinned : gset string) (w : world) :
  (load_conference_data to_datetime (save_pinned_conferences os pinned w).2).1
  = (load_conference_data to_datetime w).1.
Proof.
  assert (Hsame : files (save_pinned_conferences os pinned w).2 !! EXCEL_FILE
                  = files w !! EXCEL_FILE).
  { unfold save_pinned_conferences.
    destruct os as [| msg | n msg]; cbn; [| done |]; by rewrite lookup_insert_ne. }
  unfold load_conference_data. rewrite Hsame. by destruct (files w !! EXCEL_FILE).
Qed.

(** ** The login *)

Section Login.

Variable c : Auth.credentials.

Lemma run_snoc (events : list Auth.event) (e : Auth.event) :
  Auth.run c (events ++ [e]) = Auth.step c (Auth.run c events) e.
Proof. unfold Auth.run. apply foldl_snoc. Qed.

(** One visit of a guarded page, by the state of the session before it. *)
Lemma visit_authenticated (f : Auth.form) (ss : Auth.session) :
  Auth.authenticated ss = Some true →
  Auth.check_authentication c f ss = (ss, Auth.Body).
Proof.
  intros Hauth. unfold Auth.check_authentication. rewrite Hauth. cbn. by rewrite Hauth.
Qed.

Lemma visit_not_authenticated (f : Auth.form) (ss : Auth.session) :
  Auth.authenticated ss ≠ Some true →
  Auth.check_authentication c f ss =
  match f with
  | Auth.Submitted user password =>
      if Auth.verify_user c user password
      then (Auth.mkSession (Some true) (Some user), Auth.Rerun)
      else (Auth.mkSession (Some false) (Auth.username ss), Auth.Stopped true)
  | Auth.NotSubmitted =>
      (Auth.mkSession (Some false) (Auth.username ss), Auth.Stopped false)
  end.
Proof.
  intros Hauth. unfold Auth.check_authentication, Auth.show_login_page.
  destruct ss as [[[] |] user0]; cbn in *; try done;
    destruct f as [| user password]; try done; by destruct (Auth.verify_user _ _ _).
Qed.

Lemma authenticated_iff_logged_in (events : list Auth.event) :
  Auth.authenticated (Auth.run c events) = Some true ↔ logged_in c events.
Proof.
  induction events as [| e events IH] using rev_ind.
  - split; [done |]. intros (before & user & password & after & Heq & _).
    by destruct before.
  - rewrite run_snoc. split.
    + destruct e as [f |]; cbn [Auth.step]; [| done].
      destruct (decide (Auth.authenticated (Auth.run c events) = Some true)) as [Hauth | Hauth].
      * rewrite (visit_authenticated f _ Hauth). cbn [fst]. intros _.
        apply IH in Hauth as (before & user & password & after & -> & Hverify & Hafter).
        exists before, user, password, (after ++ [Auth.Visit f]).
        split_and!; [by rewrite <- app_assoc | done |].
        rewrite elem_of_app, list_elem_of_singleton. by intros [? | ?].
      * rewrite (visit_not_authenticated f _ Hauth).
        destruct f as [| user password]; [done |].
        destruct (Auth.verify_user c user password) eqn:Hverify; [| done].
        intros _. exists events, user, password, []. split_and!; [done | done |].
        apply not_elem_of_nil.
    + intros (before & user & password & after & Heq & Hverify & Hafter).
      destruct after as [| e' after _] using rev_ind.
      * apply app_inj_tail in Heq as [-> ->]. cbn [Auth.step].
        destruct (decide (Auth.authenticated (Auth.run c before) = Some true)) as [Hauth | Hauth].
        -- by rewrite (visit_authenticated _ _ Hauth).
        -- rewrite (visit_not_authenticated _ _ Hauth). by rewrite Hverify.
      * rewrite app_comm_cons, app_assoc in Heq. apply app_inj_tail in Heq as [-> ->].
        assert (Hauth : Auth.authenticated
                          (Auth.run c (before ++ Auth.Visit (Auth.Submitted user password) :: after))
                        = Some true).
        { apply IH. exists before, user, password, after. split_and!; [done | done |].
          intros Hin. apply Hafter, elem_of_app. by left. }
        destruct e' as [f |].
        -- cbn [Auth.step]. by rewrite (visit_authenticated f _ Hauth).
        -- exfalso. apply Hafter, elem_of_app. right. by left.
Qed.

(** X22.  The body of a guarded page is rendered exactly in a session in which
    a login with the configured pair was submitted and no logout followed:
    no other sequence of visits, wrong logins and logouts gets past
    [check_authentication]. *)
Theorem body_only_after_login (events : list Auth.event) (f : Auth.form) :
  (Auth.check_authentication c f (Auth.run c events)).2 = Auth.Body ↔ logged_in c events.
Proof.
  rewrite <- authenticated_iff_logged_in.
  destruct (decide (Auth.authenticated (Auth.run c events) = Some true)) as [Hauth | Hauth].
  - by rewrite (visit_authenticated f _ Hauth).
  - rewrite (visit_not_authenticated f _ Hauth). split; [| done].
    destruct f as [| user password]; [done |]. by destruct (Auth.verify_user _ _ _).
Qed.

(** X23.  Whenever the session is authenticated, the user name it stores is the
    configured one. *)
Theorem authenticated_user_is_configured (events : list Auth.event) :
  Auth.authenticated (Auth.run c events) = Some true →
  Auth.username (Auth.run c events) = Some (Auth.AUTH_USERNAME c).
Proof.
  induction events as [| e events IH] using rev_ind; [done |].
  rewrite run_snoc. destruct e as [f |]; cbn [Auth.step]; [| done].
  destruct (decide (Auth.authenticated (Auth.run c events) = Some true)) as [Hauth | Hauth].
  - rewrite (visit_authenticated f _ Hauth). cbn [fst]. intros _. by apply IH.
  - rewrite (visit_not_authenticated f _ Hauth).
    destruct f as [| user password]; [done |].
    destruct (Auth.verify_user c user password) eqn:Hverify; [| done].
    intros _. cbn. unfold Auth.verify_user in Hverify.
    apply andb_true_iff in Hverify as [Huser _]. apply bool_decide_eq_true in Huser.
    by rewrite Huser.
Qed.

End Login.

(** ** A save that breaks half way *)

Lemma append_nil_r (s : string) : s +:+ "" = s.
Proof. induction s as [| c s IH]; [done |]. rewrite append_cons. by f_equal. Qed.

Lemma substring_nil (m : nat) : substring 0 m "" = "".
Proof. by destruct m. Qed.

Lemma substring_cons (m : nat) (c : ascii) (s : string) :
  substring 0 (S m) (String c s) = String c (substring 0 m s).
Proof. reflexivity. Qed.

Lemma substring_append_short (m : nat) (a b : string) :
  (m ≤ String.length a)%nat → substring 0 m (a +:+ b) = substring 0 m a.
Proof.
  revert m. induction a as [| c a IH]; intros m Hm.
  - cbn in Hm. replace m with 0%nat by lia. rewrite append_nil_l. by destruct b.
  - destruct m as [| m]; [done |]. rewrite append_cons, !substring_cons.
    f_equal. apply IH. cbn in Hm. lia.
Qed.

Lemma substring_append_long (m : nat) (a b : string) :
  (String.length a ≤ m)%nat →
  substring 0 m (a +:+ b) = a +:+ substring 0 (m - String.length a) b.
Proof.
  revert m. induction a as [| c a IH]; intros m Hm.
  - rewrite !append_nil_l. cbn [String.length]. by rewrite Nat.sub_0_r.
  - destruct m as [| m]; [cbn in Hm; lia |].
    rewrite !append_cons, substring_cons. f_equal. apply IH. cbn in Hm. lia.
Qed.

(** An escape that is cut is no escape: the string stays open. *)
Lemma scanstring_cut_escape (c : ascii) (m : nat) :
  (m < String.length (escape c))%nat → scanstring (substring 0 m (escape c)) = None.
Proof.
  destruct c as [[] [] [] [] [] [] [] []]; intros Hm; vm_compute in Hm;
    do 6 (destruct m as [| m]; [first [reflexivity | lia] |]); lia.
Qed.

Lemma scanstring_cut_chars (s : string) (m : nat) :
  scanstring (substring 0 m (encode_chars s)) = None.
Proof.
  revert m. induction s as [| c s IH]; intros m.
  - cbn [encode_chars]. by rewrite substring_nil.
  - cbn [encode_chars].
    destruct (decide (m < String.length (escape c))%nat) as [Hm | Hm].
    + rewrite substring_append_short by lia. by apply scanstring_cut_escape.
    + rewrite substring_append_long by lia. by rewrite scanstring_escape, IH.
Qed.

(** The text of a string and what follows it, cut after [m] characters:
    the string is read only when its closing quote was written. *)
Lemma scanstring_cut (s tail : string) (m : nat) :
  scanstring (substring 0 m (encode_chars s +:+ String dquote tail)) =
  if decide (m ≤ String.length (encode_chars s))%nat then None
  else Some (s, substring 0 (m - String.length (encode_chars s) - 1) tail).
Proof.
  destruct (decide _) as [Hm | Hm].
  - rewrite substring_append_short by done. apply scanstring_cut_chars.
  - rewrite substring_append_long by lia.
    destruct (m - String.length (encode_chars s))%nat as [| k] eqn:Hk; [lia |].
    rewrite substring_cons, scanstring_encode_chars.
    by replace (S k - 1)%nat with k by lia.
Qed.

Lemma parse_items_nil (fuel : nat) : parse_items fuel "" = None.
Proof. by destruct fuel. Qed.

(** No cut of the items of an array is read as items: the closing bracket
    is missing. *)
Lemma parse_items_cut (items : list string) (fuel m : nat) :
  parse_items fuel (substring 0 m (encode_items items)) = None.
Proof.
  revert fuel m. induction items as [| x items IH]; intros fuel m.
  - cbn [encode_items]. by rewrite substring_nil, parse_items_nil.
  - destruct fuel as [| fuel]; [done |].
    destruct items as [| y items].
    + cbn [encode_items]. rewrite <- (append_nil_r (encode_str x)), encode_str_append.
      destruct m as [| m]; [done |]. rewrite substring_cons.
      cbn [parse_items]. change (N_of_ascii dquote =? 34)%N with true. cbv iota.
      rewrite scanstring_cut. destruct (decide _); [done |].
      by rewrite substring_nil.
    + rewrite encode_items_cons2, encode_str_append.
      destruct m as [| m]; [done |]. rewrite substring_cons.
      cbn [parse_items]. change (N_of_ascii dquote =? 34)%N with true. cbv iota.
      rewrite scanstring_cut. destruct (decide _); [done |].
      cbn [mbind option_bind].
      destruct (m - String.length (encode_chars x) - 1)%nat as [| [| k]]; [done | |].
      * transitivity (parse_items fuel "" ≫= λ '(xs, rest''), Some (x :: xs, rest''));
          [reflexivity |].
        by rewrite parse_items_nil.
      * rewrite append_cons, substring_cons, append_cons, substring_cons, append_nil_l.
        specialize (IH fuel k).
        destruct (encode_items_starts_with_quote y items "") as [text Htext].
        rewrite append_nil_r in Htext. rewrite Htext in *.
        destruct k as [| k].
        -- transitivity (parse_items fuel "" ≫= λ '(xs, rest''), Some (x :: xs, rest''));
             [reflexivity |].
           by rewrite parse_items_nil.
        -- rewrite substring_cons in *.
           transitivity (parse_items fuel (String dquote (substring 0 k text))
                         ≫= λ '(xs, rest''), Some (x :: xs, rest'')); [reflexivity |].
           by rewrite IH.
Qed.

(** [json.loads] refuses every text of [json.dumps] that was cut short. *)
Lemma json_loads_cut (items : list string) (n : nat) :
  (n < String.length (json_dumps items))%nat →
  json_loads (substring 0 n (json_dumps items)) = None.
Proof.
  unfold json_dumps. rewrite append_cons, append_nil_l. cbn [String.length].
  rewrite length_append. cbn [String.length]. intros Hn.
  destruct n as [| m]; [done |]. rewrite substring_cons.
  assert (Hcut : substring 0 m (encode_items items +:+ "]")
                 = substring 0 m (encode_items items)).
  { apply substring_append_short. lia. }
  rewrite Hcut. clear Hcut.
  pose proof (parse_items_cut items) as Hparse.
  destruct items as [| x items].
  - cbn [encode_items]. by rewrite substring_nil.
  - destruct (encode_items_starts_with_quote x items "") as [text Htext].
    rewrite append_nil_r in Htext. rewrite Htext in *.
    destruct m as [| k]; [done |].
    specialize (Hparse (String.length (String "[" (substring 0 (S k) (String dquote text))))
                       (S k)).
    rewrite substring_cons in *.
    transitivity (parse_items
                    (String.length (String "[" (String dquote (substring 0 k text))))
                    (String dquote (substring 0 k text))
                  ≫= λ '(xs, rest),
                       if bool_decide (skip_ws rest = EmptyString) then Some xs else None);
      [reflexivity |].
    by rewrite Hparse.
Qed.

(** X3.  When the writing of a save breaks before the whole text is on disk,
    the next load reads no pin at all and reports an error: the pins of
    the file as it was before the save are gone with those of the save. *)
Theorem broken_save_loses_every_pin (n : nat) (msg : string) (pinned : gset string)
    (w : world) :
  (n < String.length (json_dumps (elements pinned)))%nat →
  let w' := (save_pinned_conferences (WriteBroken n msg) pinned w).2 in
  (load_pinned_conferences w').1 = ∅ ∧
  ∃ e, errors (load_pinned_conferences w').2
       = errors w' ++ ["Error loading pinned conferences: " +:+ e].
Proof.
  intros Hn w'. subst w'.
  unfold save_pinned_conferences, load_pinned_conferences.
  cbn [write_file truncated snd st_error set_files files errors].
  rewrite lookup_insert_eq. cbn [json_load].
  rewrite (json_loads_cut _ n Hn). split; [done |]. eauto.
Qed.

(** ** The identity key tells conferences apart *)

Lemma bar_split (a a' b b' : string) :
  bar_free a = true → bar_free a' = true →
  a +:+ String "|" b = a' +:+ String "|" b' → a = a' ∧ b = b'.
Proof.
  revert a'. induction a as [| c a IH]; intros [| c' a'] Ha Ha' Heq.
  - rewrite !append_nil_l in Heq. by injection Heq as ->.
  - rewrite append_nil_l, append_cons in Heq. injection Heq as <- _.
    by cbn in Ha'.
  - rewrite append_nil_l, append_cons in Heq. injection Heq as -> _.
    by cbn in Ha.
  - rewrite !append_cons in Heq. injection Heq as -> Heq.
    cbn in Ha, Ha'. apply andb_true_iff in Ha as [_ Ha]. apply andb_true_iff in Ha' as [_ Ha'].
    destruct (IH a' Ha Ha' Heq) as [-> ->]. done.
Qed.

(** X1.  Two rows with the same identity key have the same name, start date and
    location, provided no name and no start date holds a bar: the bars of
    the key are then the two separators. *)
Theorem same_key_same_conference (r1 r2 : gmap string value) :
  bar_free (field_text r1 COL_EVENT) = true → bar_free (field_text r1 COL_START) = true →
  bar_free (field_text r2 COL_EVENT) = true → bar_free (field_text r2 COL_START) = true →
  create_conference_id r1 = create_conference_id r2 →
  field_text r1 COL_EVENT = field_text r2 COL_EVENT ∧
  field_text r1 COL_START = field_text r2 COL_START ∧
  field_text r1 COL_LOCATION = field_text r2 COL_LOCATION.
Proof.
  intros Hname1 Hdate1 Hname2 Hdate2. unfold create_conference_id. cbv zeta.
  rewrite !(append_cons "|" ""), !append_nil_l. intros Hkey.
  apply bar_split in Hkey as [Hname Hkey]; [| done | done].
  apply bar_split in Hkey as [Hdate Hloc]; [| done | done].
  done.
Qed.

(** A name with a bar in it: two conferences, one key. *)
Lemma same_key_other_conference :
  create_conference_id (<[COL_EVENT := Str "A|B"]> (<[COL_START := Str "C"]> ∅))
  = create_conference_id (<[COL_EVENT := Str "A"]> (<[COL_START := Str "B|C"]> ∅)).
Proof. reflexivity. Qed.

(** ** A refresh and the load after it *)

(** X6.  After a refresh that reports success, the conference list is built from
    the body of the response, whatever the status code and whatever the
    file held before: the sheets of the body when it is a workbook, the
    exception of [pd.ExcelFile] when it is not. *)
Theorem refresh_then_load (to_datetime : value → value) (status_code : Z) (body : content)
    (os : write_outcome) (w w' : world) (message : string) :
  download_latest_excel (Response status_code body) os w = ((true, message), w') →
  load_conference_data to_datetime w' = (combine_sheets to_datetime body, w').
Proof.
  unfold download_latest_excel.
  destruct os as [| msg | n msg]; cbn [write_file]; intros [= <- <-].
  unfold load_conference_data. cbn [set_files files]. by rewrite lookup_insert_eq.
Qed.

(** ** The further properties at concrete inputs *)

Lemma fuzzy_search_case_insensitive_witness :
  fuzzy_search exact_or_nothing "ACM" nine_conferences [COL_EVENT; COL_LOCATION] 60
  = fuzzy_search exact_or_nothing "acm" nine_conferences [COL_EVENT; COL_LOCATION] 60.
Proof.
  apply (fuzzy_search_case_insensitive exact_or_nothing "ACM" "acm" nine_conferences
           [COL_EVENT; COL_LOCATION] 60).
  reflexivity.
Defined.

Lemma fuzzy_search_found_once_witness :
  NoDup [8; 1] ∧ [8; 1] ⊆ index nine_conferences ∧
  ∃ selected, loc_rows (rows nine_conferences) [8; 1] = Ok selected.
Proof.
  apply (fuzzy_search_found_once exact_or_nothing "acm" nine_conferences
           [COL_EVENT; COL_LOCATION] 60 [8; 1]).
  - done.
  - by vm_compute.
Defined.

Lemma fuzzy_search_columns_union_witness :
  ∃ found,
    fuzzy_search exact_or_nothing "acm" nine_conferences ([COL_EVENT] ++ [COL_LOCATION]) 60
    = Ok found ∧
    ∀ x, x ∈ found ↔ x ∈ [8; 1] ∨ x ∈ [].
Proof.
  apply (fuzzy_search_columns_union exact_or_nothing "acm" nine_conferences
           [COL_EVENT] [COL_LOCATION] 60 [8; 1] []).
  - by vm_compute.
  - by vm_compute.
Defined.

Lemma load_years_are_sheet_names_witness :
  match combine_sheets (λ v, v) (Workbook [("Header", empty_frame); ("2024", sheet_2024)]) with
  | Ok df => (λ ir, cell ir.2 COL_YEAR) <$> rows df = [Str "2024"]
  | Raise _ => False
  end.
Proof.
  destruct (combine_sheets _ _) as [df | e] eqn:Hload.
  - exact (load_years_are_sheet_names (λ v, v) _ df Hload).
  - vm_compute in Hload. discriminate.
Defined.

Lemma loaded_key_is_recomputed_key_witness :
  match combine_sheets (λ v, v) (Workbook [("Header", empty_frame); ("2024", sheet_2024)]) with
  | Ok df =>
      match rows df with
      | (x, r) :: _ => cell r COL_ID = Str (create_conference_id (row_series df r))
      | [] => False
      end
  | Raise _ => False
  end.
Proof.
  destruct (combine_sheets _ _) as [df | e] eqn:Hload.
  - destruct (rows df) as [| [x r] others] eqn:Hrows.
    + vm_compute in Hload. injection Hload as <-. discriminate Hrows.
    + apply (loaded_key_is_recomputed_key (λ v, v) _ df x r Hload).
      rewrite Hrows. left.
  - vm_compute in Hload. discriminate.
Defined.

Lemma load_without_data_sheet_raises_witness :
  combine_sheets (λ v, v) (Workbook [("Header", sheet_2024)])
  = Raise (ValueError "No objects to concatenate").
Proof.
  apply (load_without_data_sheet_raises (λ v, v) [("Header", sheet_2024)]).
  by apply Forall_singleton.
Defined.

Lemma load_without_start_date_raises_witness :
  combine_sheets (λ v, v)
    (Workbook [("2024", mkDataFrame [COL_EVENT; COL_LOCATION] [(0, euroconf_paris)])])
  = Raise (KeyError COL_START).
Proof.
  apply (load_without_start_date_raises (λ v, v)
           [("2024", mkDataFrame [COL_EVENT; COL_LOCATION] [(0, euroconf_paris)])]).
  - eexists. split; [left | done].
  - intros s Hs _. apply list_elem_of_singleton in Hs as ->.
    apply (bool_decide_unpack _). by vm_compute.
Defined.

Lemma reconcile_pins_the_checked_rows_witness :
  key_euroconf2 ∈ ({[key_euroconf; key_euroconf2]} : gset string) ↔
  ∃ x r, (x, r) ∈ rows two_conferences ∧ key_euroconf2 = py_str (cell r COL_ID) ∧
         if bool_decide (x ∈ [1])
         then key_euroconf2 ∉ ({[key_euroconf]} : gset string)
         else key_euroconf2 ∈ ({[key_euroconf]} : gset string).
Proof.
  apply (reconcile_pins_the_checked_rows WriteOk two_conferences [1]
           {[key_euroconf]} {[key_euroconf; key_euroconf2]}
           (mkWorld ∅ [])
           (mkWorld {[PINNED_FILE :=
                        Text (json_dumps (elements ({[key_euroconf; key_euroconf2]}
                                                     : gset string)))]} [])).
  - apply (bool_decide_unpack _). by vm_compute.
  - reflexivity.
  - vm_compute. reflexivity.
Defined.

Lemma reconcile_again_changes_nothing_witness :
  reconcile WriteOk two_conferences [] {[key_euroconf; key_euroconf2]}
    (mkWorld {[PINNED_FILE :=
                 Text (json_dumps (elements ({[key_euroconf; key_euroconf2]}
                                              : gset string)))]} [])
  = Ok ({[key_euroconf; key_euroconf2]},
        mkWorld {[PINNED_FILE :=
                    Text (json_dumps (elements ({[key_euroconf; key_euroconf2]}
                                                 : gset string)))]} []).
Proof.
  apply (reconcile_again_changes_nothing WriteOk WriteOk two_conferences [1]
           {[key_euroconf]} {[key_euroconf; key_euroconf2]} (mkWorld ∅ [])).
  - apply (bool_decide_unpack _). by vm_compute.
  - reflexivity.
  - vm_compute. reflexivity.
Defined.

Lemma reconcile_keeps_file_in_step_witness :
  (load_pinned_conferences
     (mkWorld {[PINNED_FILE :=
                  Text (json_dumps (elements ({[key_euroconf; key_euroconf2]}
                                               : gset string)))]} [])).1
  = {[key_euroconf; key_euroconf2]}.
Proof.
  apply (reconcile_keeps_file_in_step two_conferences [1]
           {[key_euroconf]} {[key_euroconf; key_euroconf2]}
           (mkWorld {[PINNED_FILE := Text (json_dumps [key_euroconf])]} [])).
  - vm_compute. reflexivity.
  - vm_compute. reflexivity.
Defined.

Lemma filter_pipeline_keeps_labels_distinct_witness :
  match filter_pipeline exact_or_nothing nine_conferences "acm" 60 "All" "All" with
  | Ok out => NoDup (index out) ∧ index out ⊆ index nine_conferences
  | Raise _ => False
  end.
Proof.
  destruct (filter_pipeline _ _ _ _ _ _) as [out | e] eqn:Hrun.
  - apply (filter_pipeline_keeps_labels_distinct exact_or_nothing nine_conferences
             "acm" 60 "All" "All" out); [| done].
    apply (bool_decide_unpack _). by vm_compute.
  - vm_compute in Hrun. discriminate.
Defined.

Lemma unpin_removes_the_selected_keys_witness :
  key_euroconf2 ∈ ({[key_euroconf2]} : gset string) ↔
  key_euroconf2 ∈ ({[key_euroconf; key_euroconf2]} : gset string) ∧
  ¬ ∃ x r, (x, r) ∈ rows two_conferences ∧ x ∈ [0] ∧ cell r COL_ID = Str key_euroconf2.
Proof.
  apply (unpin_removes_the_selected_keys WriteOk two_conferences [0]
           {[key_euroconf; key_euroconf2]} {[key_euroconf2]}
           (mkWorld ∅ [])
           (mkWorld {[PINNED_FILE := Text (json_dumps [key_euroconf2])]} [])).
  vm_compute. reflexivity.
Defined.

Lemma unpin_keeps_file_in_step_witness :
  (load_pinned_conferences
     (mkWorld {[PINNED_FILE := Text (json_dumps [key_euroconf2])]} [])).1
  = {[key_euroconf2]}.
Proof.
  apply (unpin_keeps_file_in_step two_conferences [0]
           {[key_euroconf; key_euroconf2]} {[key_euroconf2]}
           (mkWorld {[PINNED_FILE :=
                        Text (json_dumps (elements ({[key_euroconf; key_euroconf2]}
                                                     : gset string)))]} [])).
  - vm_compute. reflexivity.
  - vm_compute. reflexivity.
Defined.

Lemma authenticated_user_is_configured_witness :
  Auth.username
    (Auth.run (Auth.mkCredentials "admin" "admin123")
       [Auth.Visit Auth.NotSubmitted; Auth.Visit (Auth.Submitted "admin" "admin123")])
  = Some "admin".
Proof.
  apply (authenticated_user_is_configured (Auth.mkCredentials "admin" "admin123")
           [Auth.Visit Auth.NotSubmitted; Auth.Visit (Auth.Submitted "admin" "admin123")]).
  reflexivity.
Defined.

Lemma broken_save_loses_every_pin_witness :
  let w' := (save_pinned_conferences (WriteBroken 5 "No space left on device")
               {[key_euroconf]}
               (mkWorld {[PINNED_FILE := Text (json_dumps [key_euroconf2])]} [])).2 in
  (load_pinned_conferences w').1 = ∅ ∧
  ∃ e, errors (load_pinned_conferences w').2
       = errors w' ++ ["Error loading pinned conferences: " +:+ e].
Proof.
  apply (broken_save_loses_every_pin 5 "No space left on device" {[key_euroconf]}
           (mkWorld {[PINNED_FILE := Text (json_dumps [key_euroconf2])]} [])).
  apply Nat.ltb_lt. by vm_compute.
Defined.

Lemma same_key_same_conference_witness :
  field_text euroconf_paris COL_EVENT = field_text euroconf_paris_other_fields COL_EVENT ∧
  field_text euroconf_paris COL_START = field_text euroconf_paris_other_fields COL_START ∧
  field_text euroconf_paris COL_LOCATION
  = field_text euroconf_paris_other_fields COL_LOCATION.
Proof.
  apply (same_key_same_conference euroconf_paris euroconf_paris_other_fields);
    reflexivity.
Defined.

Lemma refresh_then_load_witness :
  load_conference_data (λ v, v)
    (mkWorld {[EXCEL_FILE := Workbook [("2024", sheet_2024)]]} [])
  = (combine_sheets (λ v, v) (Workbook [("2024", sheet_2024)]),
     mkWorld {[EXCEL_FILE := Workbook [("2024", sheet_2024)]]} []).
Proof.
  apply (refresh_then_load (λ v, v) 200 (Workbook [("2024", sheet_2024)]) WriteOk
           (mkWorld ∅ []) _ "Successfully downloaded the latest conference list!").
  reflexivity.
Defined.
